(** * AtlasCryptoKit: a shallow embedding of the wallet core

    The development follows [AtlasCryptoKit.py]: unit conversion with
    Python's [decimal] module, seed derivation through the [mnemonic]
    package, account derivation and message signing through [eth_account],
    and the transaction builder, which talks to a node through [web3].

    Python exceptions are values of [exn]; a call that may raise returns a
    [result].  Python [int] is [Z], [bytes] is [list byte], a [dict] with
    string keys is a [gmap string _].  A Python [str] that carries data is
    a list of code points ([str]); dictionary keys, attribute names and
    exception messages, which are literals of the program, are [string]. *)

From Stdlib Require Import ZArith NArith Lia Strings.Byte Ascii.
From stdpp Require Import base option list strings gmap.

Local Open Scope Z_scope.

(** ** Exceptions and results *)

Inductive exn : Type :=
| ValueError (msg : string)
| OverflowError (msg : string)
| AttributeError (msg : string)
| RuntimeError (msg : string)
| UnicodeEncodeError (msg : string)
| DecimalInvalidOperation
| DecimalOverflow
| LibraryError (msg : string).

Inductive result (A : Type) : Type :=
| Ok (a : A)
| Err (e : exn).
Arguments Ok {A} a.
Arguments Err {A} e.

#[global] Instance result_ret : MRet result := fun A a => Ok a.
#[global] Instance result_bind : MBind result := fun A B f r =>
  match r with
  | Ok a => f a
  | Err e => Err e
  end.

Definition is_ok {A} (r : result A) : bool :=
  match r with Ok _ => true | Err _ => false end.

(** ** Python's [decimal] module, default context

    [getcontext()] is never changed by the program: precision 28,
    [ROUND_HALF_EVEN], [Emin = -999999], [Emax = 999999], [clamp = 0], and
    the traps [InvalidOperation], [DivisionByZero], [Overflow]. *)

Module decimal.

(** A [Decimal] is a sign, a non-negative coefficient (Python keeps its
    digits in [_int]) and an exponent, or a special value.  The payload of
    a NaN is not kept: no operation used here reads it. *)
Inductive Decimal : Type :=
| Finite (sign : bool) (coeff : N) (exp : Z)
| Infinity (sign : bool)
| NaN (sign : bool) (signaling : bool).

Definition prec : Z := 28.
Definition Emax : Z := 999999.
Definition Emin : Z := -999999.
Definition Etiny : Z := Emin - prec + 1.
Definition Etop : Z := Emax - prec + 1.

(** [len(str(n))] for [0 <= n]. *)
Fixpoint ndigits_fuel (fuel : nat) (n : Z) : Z :=
  match fuel with
  | O => 1
  | S fuel' => if n <? 10 then 1 else 1 + ndigits_fuel fuel' (n / 10)
  end.

Definition ndigits (n : Z) : Z := ndigits_fuel (S (Z.to_nat (Z.log2 n))) n.

(** [Decimal(n)] for a Python [int]: exact. *)
Definition of_int (n : Z) : Decimal := Finite (n <? 0) (Z.abs_N n) 0.

(** [_round_half_even]: does dropping the remainder [r] (out of [m])
    below the quotient [q] round up? *)
Definition round_half_even_up (q r m : Z) : bool :=
  if m <? 2 * r then true
  else if 2 * r =? m then Z.odd q
  else false.

(** [Decimal._fix]: round a finite value with coefficient [c] and exponent
    [e] to the context. *)
Definition fix_ (sign : bool) (c : Z) (e : Z) : result Decimal :=
  if c =? 0 then
    Ok (Finite sign 0 (Z.min (Z.max e Etiny) Emax))
  else
    let len := ndigits c in
    let exp_min := len + e - prec in
    if Etop <? exp_min then Err DecimalOverflow
    else
      let exp_min := if exp_min <? Etiny then Etiny else exp_min in
      if e <? exp_min then
        let digits := len + e - exp_min in
        let '(c1, e1) := if digits <? 0 then (1, exp_min - 1) else (c, e) in
        let m := 10 ^ (exp_min - e1) in
        let q := c1 / m in
        let r := c1 mod m in
        let '(coeff, exp_min) :=
          if round_half_even_up q r m then
            if prec <? ndigits (q + 1) then ((q + 1) / 10, exp_min + 1)
            else (q + 1, exp_min)
          else (q, exp_min) in
        if Etop <? exp_min then Err DecimalOverflow
        else Ok (Finite sign (Z.to_N coeff) exp_min)
      else Ok (Finite sign (Z.to_N c) e).

(** [Decimal.__mul__]. *)
Definition mul (a b : Decimal) : result Decimal :=
  match a, b with
  | NaN _ true, _ => Err DecimalInvalidOperation
  | _, NaN _ true => Err DecimalInvalidOperation
  | NaN s false, _ => Ok (NaN s false)
  | _, NaN s false => Ok (NaN s false)
  | Infinity s1, Infinity s2 => Ok (Infinity (xorb s1 s2))
  | Infinity s1, Finite s2 c2 _ =>
      if (c2 =? 0)%N then Err DecimalInvalidOperation
      else Ok (Infinity (xorb s1 s2))
  | Finite s1 c1 _, Infinity s2 =>
      if (c1 =? 0)%N then Err DecimalInvalidOperation
      else Ok (Infinity (xorb s1 s2))
  | Finite s1 c1 e1, Finite s2 c2 e2 =>
      fix_ (xorb s1 s2) (Z.of_N c1 * Z.of_N c2) (e1 + e2)
  end.

(** [Decimal.__int__]: truncation towards zero. *)
Definition to_int (d : Decimal) : result Z :=
  match d with
  | NaN _ _ => Err (ValueError "cannot convert NaN to integer")
  | Infinity _ => Err (OverflowError "cannot convert Infinity to integer")
  | Finite sign c e =>
      let s := if sign then -1 else 1 in
      if 0 <=? e then Ok (s * Z.of_N c * 10 ^ e)
      else Ok (s * (Z.of_N c / 10 ^ (- e)))
  end.

End decimal.
Export decimal.

(** ** Python strings *)

(** A [str] is a sequence of Unicode code points.  Lone surrogates
    ([0xD800..0xDFFF]) may occur in a Python [str]; they are what
    [str.encode("utf-8")] refuses. *)
Definition str : Type := list N.

(** A literal of the program text (ASCII). *)
Definition lit (s : string) : str := N_of_ascii <$> String.list_ascii_of_string s.

Definition byte_of_N (n : N) : byte :=
  match Byte.of_N (n mod 256) with
  | Some b => b
  | None => x00
  end.

Definition is_surrogate (c : N) : bool := ((0xD800 <=? c) && (c <=? 0xDFFF))%N.

(** A code point UTF-8 can encode: below [0x110000] and no surrogate. *)
Definition is_scalar_value (c : N) : bool := ((c <? 0x110000) && negb (is_surrogate c))%N.

Definition encodable (s : str) : bool := forallb is_scalar_value s.

Definition encode_code_point (c : N) : result (list byte) :=
  (if c <? 0x80 then Ok [byte_of_N c]
   else if c <? 0x800 then
     Ok [byte_of_N (0xC0 + c / 64); byte_of_N (0x80 + c mod 64)]
   else if negb (is_scalar_value c) then
     Err (UnicodeEncodeError "'utf-8' codec can't encode character: surrogates not allowed")
   else if c <? 0x10000 then
     Ok [byte_of_N (0xE0 + c / 4096); byte_of_N (0x80 + (c / 64) mod 64);
         byte_of_N (0x80 + c mod 64)]
   else
     Ok [byte_of_N (0xF0 + c / 262144); byte_of_N (0x80 + (c / 4096) mod 64);
         byte_of_N (0x80 + (c / 64) mod 64); byte_of_N (0x80 + c mod 64)])%N.

(** [s.encode("utf-8")] *)
Fixpoint encode_utf8 (s : str) : result (list byte) :=
  match s with
  | [] => Ok []
  | c :: s' =>
      b ← encode_code_point c;
      bs ← encode_utf8 s';
      Ok (b ++ bs)
  end.

(** [str(n)] for a non-negative [int]: its decimal digits. *)
Fixpoint decimal_digits (fuel : nat) (n : N) (acc : str) : str :=
  match fuel with
  | O => acc
  | S fuel' =>
      let acc := (48 + n mod 10)%N :: acc in
      if (n <? 10)%N then acc else decimal_digits fuel' (n / 10)%N acc
  end.

Definition str_of_N (n : N) : str := decimal_digits (S (N.to_nat (N.log2 n))) n [].

(** [str(n)] for an [int]. *)
Definition str_of_int (n : Z) : str :=
  if n <? 0 then lit "-" ++ str_of_N (Z.abs_N n) else str_of_N (Z.abs_N n).

(** [s.split(sep)] for a one-character separator. *)
Fixpoint split_on (sep : N) (s : str) : list str :=
  match s with
  | [] => [[]]
  | c :: s' =>
      if (c =? sep)%N then [] :: split_on sep s'
      else match split_on sep s' with
           | w :: ws => (c :: w) :: ws
           | [] => [[c]]
           end
  end.

(** ** Python's [unicodedata]

    [unicodedata.normalize("NFKD", s)] is driven by the tables of the Unicode
    character database, which are not part of the program.  The runtime's
    normaliser is a parameter, known by two facts about the database: ASCII
    characters have no decomposition, and surrogates neither decompose nor
    occur in a decomposition. *)
Record unicodedata : Type := {
  normalize_NFKD : str -> str;
  NFKD_ascii : forall s, forallb (fun c => c <? 128)%N s = true -> normalize_NFKD s = s;
  NFKD_encodable : forall s, encodable (normalize_NFKD s) = encodable s
}.

(** A database without decomposable characters; it agrees with every
    [unicodedata] on ASCII text. *)
Definition no_decompositions : unicodedata :=
  {| normalize_NFKD := fun s => s;
     NFKD_ascii := fun s _ => eq_refl;
     NFKD_encodable := fun s => eq_refl |}.

(** ** Python's [hashlib]: SHA-512, HMAC and PBKDF2 (FIPS 180-4, RFC 2104,
    RFC 8018) *)

Module hashlib.

Definition byte_to_Z (b : byte) : Z := Z.of_N (Byte.to_N b).

Definition byte_of_Z (z : Z) : byte :=
  match Byte.of_N (Z.to_N (z mod 256)) with
  | Some b => b
  | None => x00
  end.

(** 64-bit words are integers in [0, 2^64). *)
Definition mask64 : Z := 0xffffffffffffffff.
Definition add64 (x y : Z) : Z := Z.land (x + y) mask64.
Definition rotr (n x : Z) : Z :=
  Z.lor (Z.shiftr x n) (Z.land (Z.shiftl x (64 - n)) mask64).
Definition shr (n x : Z) : Z := Z.shiftr x n.

Definition Ch (x y z : Z) : Z :=
  Z.lxor (Z.land x y) (Z.land (Z.lxor x mask64) z).
Definition Maj (x y z : Z) : Z :=
  Z.lxor (Z.lxor (Z.land x y) (Z.land x z)) (Z.land y z).
Definition Sigma0 (x : Z) : Z := Z.lxor (Z.lxor (rotr 28 x) (rotr 34 x)) (rotr 39 x).
Definition Sigma1 (x : Z) : Z := Z.lxor (Z.lxor (rotr 14 x) (rotr 18 x)) (rotr 41 x).
Definition sigma0 (x : Z) : Z := Z.lxor (Z.lxor (rotr 1 x) (rotr 8 x)) (shr 7 x).
Definition sigma1 (x : Z) : Z := Z.lxor (Z.lxor (rotr 19 x) (rotr 61 x)) (shr 6 x).

Definition K : list Z := [
  0x428a2f98d728ae22; 0x7137449123ef65cd; 0xb5c0fbcfec4d3b2f; 0xe9b5dba58189dbbc;
  0x3956c25bf348b538; 0x59f111f1b605d019; 0x923f82a4af194f9b; 0xab1c5ed5da6d8118;
  0xd807aa98a3030242; 0x12835b0145706fbe; 0x243185be4ee4b28c; 0x550c7dc3d5ffb4e2;
  0x72be5d74f27b896f; 0x80deb1fe3b1696b1; 0x9bdc06a725c71235; 0xc19bf174cf692694;
  0xe49b69c19ef14ad2; 0xefbe4786384f25e3; 0x0fc19dc68b8cd5b5; 0x240ca1cc77ac9c65;
  0x2de92c6f592b0275; 0x4a7484aa6ea6e483; 0x5cb0a9dcbd41fbd4; 0x76f988da831153b5;
  0x983e5152ee66dfab; 0xa831c66d2db43210; 0xb00327c898fb213f; 0xbf597fc7beef0ee4;
  0xc6e00bf33da88fc2; 0xd5a79147930aa725; 0x06ca6351e003826f; 0x142929670a0e6e70;
  0x27b70a8546d22ffc; 0x2e1b21385c26c926; 0x4d2c6dfc5ac42aed; 0x53380d139d95b3df;
  0x650a73548baf63de; 0x766a0abb3c77b2a8; 0x81c2c92e47edaee6; 0x92722c851482353b;
  0xa2bfe8a14cf10364; 0xa81a664bbc423001; 0xc24b8b70d0f89791; 0xc76c51a30654be30;
  0xd192e819d6ef5218; 0xd69906245565a910; 0xf40e35855771202a; 0x106aa07032bbd1b8;
  0x19a4c116b8d2d0c8; 0x1e376c085141ab53; 0x2748774cdf8eeb99; 0x34b0bcb5e19b48a8;
  0x391c0cb3c5c95a63; 0x4ed8aa4ae3418acb; 0x5b9cca4f7763e373; 0x682e6ff3d6b2b8a3;
  0x748f82ee5defb2fc; 0x78a5636f43172f60; 0x84c87814a1f0ab72; 0x8cc702081a6439ec;
  0x90befffa23631e28; 0xa4506cebde82bde9; 0xbef9a3f7b2c67915; 0xc67178f2e372532b;
  0xca273eceea26619c; 0xd186b8c721c0c207; 0xeada7dd6cde0eb1e; 0xf57d4f7fee6ed178;
  0x06f067aa72176fba; 0x0a637dc5a2c898a6; 0x113f9804bef90dae; 0x1b710b35131c471b;
  0x28db77f523047d84; 0x32caab7b40c72493; 0x3c9ebe0a15c9bebc; 0x431d67c49c100d4c;
  0x4cc5d4becb3e42b6; 0x597f299cfc657e2a; 0x5fcb6fab3ad6faec; 0x6c44198c4a475817 ].

(** The eight working variables, and the hash value they update. *)
Record state : Type := State { sa : Z; sb : Z; sc : Z; sd : Z; se : Z; sf : Z; sg : Z; sh : Z }.

Definition H0 : state :=
  State 0x6a09e667f3bcc908 0xbb67ae8584caa73b 0x3c6ef372fe94f82b 0xa54ff53a5f1d36f1
        0x510e527fade682d1 0x9b05688c2b3e6c1f 0x1f83d9abfb41bd6b 0x5be0cd19137e2179.

(** The message schedule, most recent word first: from [W(t-1) .. W(t-16)]
    compute [W(t)], [n] times. *)
Fixpoint schedule (n : nat) (w : list Z) : list Z :=
  match n with
  | O => w
  | S n' =>
      let wt := add64 (add64 (add64 (sigma1 (nth 1 w 0)) (nth 6 w 0))
                         (sigma0 (nth 14 w 0))) (nth 15 w 0) in
      schedule n' (wt :: w)
  end.

Definition round (s : state) (kw : Z * Z) : state :=
  let '(State a b c d e f g h) := s in
  let T1 := add64 (add64 (add64 (add64 h (Sigma1 e)) (Ch e f g)) kw.1) kw.2 in
  let T2 := add64 (Sigma0 a) (Maj a b c) in
  State (add64 T1 T2) a b c (add64 d T1) e f g.

Definition compress (H : state) (block : list Z) : state :=
  let W := rev (schedule 64 (rev block)) in
  let '(State a b c d e f g h) := foldl round H (zip K W) in
  State (add64 (sa H) a) (add64 (sb H) b) (add64 (sc H) c) (add64 (sd H) d)
        (add64 (se H) e) (add64 (sf H) f) (add64 (sg H) g) (add64 (sh H) h).

(** Big-endian words. *)
Definition word_of_bytes (bs : list byte) : Z :=
  foldl (fun acc b => acc * 256 + byte_to_Z b) 0 bs.

Definition bytes_of_word (x : Z) : list byte :=
  [ byte_of_Z (Z.shiftr x 56); byte_of_Z (Z.shiftr x 48); byte_of_Z (Z.shiftr x 40);
    byte_of_Z (Z.shiftr x 32); byte_of_Z (Z.shiftr x 24); byte_of_Z (Z.shiftr x 16);
    byte_of_Z (Z.shiftr x 8); byte_of_Z x ].

Fixpoint words (n : nat) (bs : list byte) : list Z :=
  match n with
  | O => []
  | S n' => word_of_bytes (take 8 bs) :: words n' (drop 8 bs)
  end.

Fixpoint blocks (n : nat) (bs : list byte) : list (list Z) :=
  match n with
  | O => []
  | S n' => words 16 (take 128 bs) :: blocks n' (drop 128 bs)
  end.

(** Padding: a [1] bit, zeros up to 112 modulo 128 bytes, and the bit
    length on 128 bits. *)
Definition pad (msg : list byte) : list byte :=
  let l := Z.of_nat (length msg) in
  msg ++ [x80] ++ replicate (Z.to_nat ((111 - l) mod 128)) x00
      ++ bytes_of_word (Z.shiftr (8 * l) 64) ++ bytes_of_word (8 * l).

Definition digest (H : state) : list byte :=
  let '(State a b c d e f g h) := H in
  bytes_of_word a ++ bytes_of_word b ++ bytes_of_word c ++ bytes_of_word d ++
  bytes_of_word e ++ bytes_of_word f ++ bytes_of_word g ++ bytes_of_word h.

(** [hashlib.sha512(msg).digest()] *)
Definition sha512 (msg : list byte) : list byte :=
  let padded := pad msg in
  digest (foldl compress H0 (blocks (length padded / 128) padded)).

Definition xor_byte (x y : byte) : byte :=
  byte_of_Z (Z.lxor (byte_to_Z x) (byte_to_Z y)).

Definition xor_bytes (xs ys : list byte) : list byte := zip_with xor_byte xs ys.

(** [hmac.digest(key, msg, "sha512")]; the block size of SHA-512 is 128. *)
Definition hmac_sha512 (key msg : list byte) : list byte :=
  let key := if (128 <? length key)%nat then sha512 key else key in
  let key := key ++ replicate (128 - length key) x00 in
  let ipad := xor_byte x36 <$> key in
  let opad := xor_byte x5c <$> key in
  sha512 (opad ++ sha512 (ipad ++ msg)).

(** One more iteration of PBKDF2's function F: the next [U] and the
    running exclusive-or. *)
Definition pbkdf2_step (password : list byte) (ut : list byte * list byte)
  : list byte * list byte :=
  let u := hmac_sha512 password ut.1 in (u, xor_bytes ut.2 u).

(** [hashlib.pbkdf2_hmac("sha512", password, salt, iterations)] with
    [dklen=None]: the derived key is one digest long, the first block
    [T_1 = U_1 xor ... xor U_c]. *)
Definition pbkdf2_hmac_sha512 (password salt : list byte) (iterations : nat) : list byte :=
  let u1 := hmac_sha512 password (salt ++ [x00; x00; x00; x01]) in
  (Nat.iter (iterations - 1) (pbkdf2_step password) (u1, u1)).2.

End hashlib.

#[global] Arguments hashlib.sha512 : simpl never.
#[global] Arguments hashlib.hmac_sha512 : simpl never.
#[global] Arguments hashlib.pbkdf2_hmac_sha512 : simpl never.


(** ** The [mnemonic] package *)

Module Mnemonic.

Definition PBKDF2_ROUNDS : nat := 2048.

(** [Mnemonic.normalize_string] *)
Definition normalize_string (U : unicodedata) (txt : str) : str :=
  normalize_NFKD U txt.

(** [Mnemonic.to_seed]: a class method; it reads neither the word list nor
    the checksum. *)
Definition to_seed (U : unicodedata) (mnemonic passphrase : str) : result (list byte) :=
  let mnemonic := normalize_string U mnemonic in
  let passphrase := normalize_string U passphrase in
  let passphrase := lit "mnemonic" ++ passphrase in
  mnemonic_bytes ← encode_utf8 mnemonic;
  passphrase_bytes ← encode_utf8 passphrase;
  let stretched :=
    hashlib.pbkdf2_hmac_sha512 mnemonic_bytes passphrase_bytes PBKDF2_ROUNDS in
  Ok (take 64 stretched).

End Mnemonic.

(** ** Python objects stored in dictionaries and read as attributes *)

Inductive pyobj : Type :=
| VStr (s : str)
| VInt (n : Z)
| VBytes (b : list byte).

(** ** [hexbytes.HexBytes] *)

Definition hex_digit (n : N) : N := (if n <? 10 then 48 + n else 87 + n)%N.

Definition hex_value (c : N) : option N :=
  (if (48 <=? c) && (c <=? 57) then Some (c - 48)
   else if (97 <=? c) && (c <=? 102) then Some (c - 87)
   else if (65 <=? c) && (c <=? 70) then Some (c - 55)
   else None)%N.

(** [bytes.hex()] *)
Definition bytes_hex (bs : list byte) : str :=
  flat_map (fun b => [hex_digit (Byte.to_N b / 16); hex_digit (Byte.to_N b mod 16)]%N) bs.

(** [s.encode("ascii")] *)
Definition is_ascii (s : str) : bool := forallb (fun c => c <? 128)%N s.

Definition encode_ascii (s : str) : result (list byte) :=
  if is_ascii s then Ok (byte_of_N <$> s)
  else Err (UnicodeEncodeError
              "'ascii' codec can't encode character: ordinal not in range(128)").

(** [binascii.unhexlify] *)
Fixpoint unhexlify (s : list byte) : result (list byte) :=
  match s with
  | [] => Ok []
  | [_] => Err (ValueError "Odd-length string")
  | h :: l :: rest =>
      match hex_value (Byte.to_N h), hex_value (Byte.to_N l) with
      | Some x, Some y => bs ← unhexlify rest; Ok (byte_of_N (16 * x + y) :: bs)
      | _, _ => Err (ValueError "Non-hexadecimal digit found")
      end
  end.

(** [HexBytes.hex()]: the digits with a ["0x"] prefix. *)
Definition HexBytes_hex (bs : list byte) : str := lit "0x" ++ bytes_hex bs.

(** [HexBytes(hexstr)], that is [hexstr_to_bytes]: an optional ["0x"] or
    ["0X"] prefix, a ["0"] in front of an odd number of characters, the
    ASCII encoding (its [except UnicodeDecodeError] catches nothing that
    [encode] raises), then [unhexlify]. *)
Definition HexBytes_of_str (hexstr : str) : result (list byte) :=
  let non_prefixed_hex :=
    match hexstr with
    | 48%N :: 120%N :: rest => rest
    | 48%N :: 88%N :: rest => rest
    | _ => hexstr
    end in
  let padded_hex :=
    if Nat.odd (length hexstr) then 48%N :: non_prefixed_hex else non_prefixed_hex in
  ascii_hex ← encode_ascii padded_hex;
  unhexlify ascii_hex.

(** ** The [eth_account] package *)

(** [eth_account.messages.SignableMessage] *)
Record SignableMessage : Type := {
  version : list byte;
  header : list byte;
  body : list byte
}.

(** [encode_defunct(text=...)]: version [E], header
    [thereum Signed Message:\n] followed by the decimal length of the
    body in bytes. *)
Definition encode_defunct (text : str) : result SignableMessage :=
  message_bytes ← encode_utf8 text;
  msg_length ← encode_utf8 (str_of_N (N.of_nat (length message_bytes)));
  header_text ← encode_utf8 (lit "thereum Signed Message:" ++ [10%N]);
  Ok {| version := [x45]; header := header_text ++ msg_length; body := message_bytes |}.

(** [eth_account.datastructures.SignedMessage], a named tuple of exactly
    these five fields. *)
Record SignedMessage : Type := {
  messageHash : list byte;
  r : Z;
  s : Z;
  v : Z;
  signature : list byte
}.

(** Attribute access on a [SignedMessage]. *)
Definition SignedMessage_getattr (m : SignedMessage) (name : string) : result pyobj :=
  if String.eqb name "messageHash" then Ok (VBytes (messageHash m))
  else if String.eqb name "r" then Ok (VInt (r m))
  else if String.eqb name "s" then Ok (VInt (s m))
  else if String.eqb name "v" then Ok (VInt (v m))
  else if String.eqb name "signature" then Ok (VBytes (signature m))
  else Err (AttributeError ("'SignedMessage' object has no attribute '" +:+ name +:+ "'")).

(** [x.hex()] on an attribute value: only [HexBytes] has the method. *)
Definition pyobj_hex (x : pyobj) : result str :=
  match x with
  | VBytes b => Ok (HexBytes_hex b)
  | VStr _ => Err (AttributeError "'str' object has no attribute 'hex'")
  | VInt _ => Err (AttributeError "'int' object has no attribute 'hex'")
  end.

(** [eth_account.signers.local.LocalAccount] *)
Record LocalAccount : Type := {
  address : str;
  key : list byte
}.

(** The cryptography behind [eth_account] (keccak-256, secp256k1 signing
    and recovery, BIP-32 derivation): the operations the package calls, as
    functions of their arguments. *)
Record crypto : Type := {
  (** [Account._parsePrivateKey]: a 32-byte scalar in range, or an error. *)
  parse_private_key : str -> result (list byte);
  (** The checksummed address of a private key. *)
  private_key_to_address : list byte -> str;
  (** Hash the EIP-191 message and sign the hash. *)
  sign_message_hash : list byte -> SignableMessage -> SignedMessage;
  (** Hash the EIP-191 message and recover the signer's address. *)
  recover_signer : SignableMessage -> list byte -> result str;
  (** [seed_from_mnemonic] followed by [key_from_seed]: mnemonic,
      passphrase, account path. *)
  key_from_mnemonic : str -> str -> str -> result (list byte)
}.

(** The state of the [Account] class: [_use_unaudited_hdwallet_features],
    [False] until [Account.enable_unaudited_hdwallet_features()] is called
    (the program never calls it). *)
Record AccountClass : Type := {
  use_unaudited_hdwallet_features : bool
}.

Definition Account_at_import : AccountClass :=
  {| use_unaudited_hdwallet_features := false |}.

Module Account.

Definition local_account (C : crypto) (k : list byte) : LocalAccount :=
  {| address := private_key_to_address C k; key := k |}.

(** [Account.from_key] *)
Definition from_key (C : crypto) (private_key : str) : result LocalAccount :=
  k ← parse_private_key C private_key;
  Ok (local_account C k).

(** [LocalAccount.sign_message] *)
Definition sign_message (C : crypto) (acct : LocalAccount) (msg : SignableMessage)
  : result SignedMessage :=
  Ok (sign_message_hash C (key acct) msg).

(** [Account.recover_message(msg, signature=...)] *)
Definition recover_message (C : crypto) (msg : SignableMessage) (signature : str)
  : result str :=
  signature_bytes ← HexBytes_of_str signature;
  recover_signer C msg signature_bytes.

(** [Account.from_mnemonic]: refused unless the class was switched to
    allow the HD wallet features. *)
Definition from_mnemonic (C : crypto) (cls : AccountClass)
    (mnemonic passphrase account_path : str) : result LocalAccount :=
  if use_unaudited_hdwallet_features cls then
    k ← key_from_mnemonic C mnemonic passphrase account_path;
    Ok (local_account C k)
  else
    Err (AttributeError
           "The use of the Mnemonic features of Account is disabled by default").

End Account.

(** ** The node client ([web3.Web3])

    The handle [w3] passed to the builder.  Every member is a remote call
    or a validation and may raise; [eth_estimate_gas] receives the
    transaction skeleton.  ([w3.eth.account], which the verifier uses, is
    the [Account] class of [eth_account] above.) *)
Record Web3 : Type := {
  toChecksumAddress : str -> result str;
  eth_get_transaction_count : str -> result Z;
  eth_chain_id : result Z;
  eth_gas_price : result Z;
  eth_estimate_gas : gmap string pyobj -> result Z
}.

(** * AtlasCryptoKit *)

(** ** Utilities *)

(** [int(x * Decimal(10**k))], the conversion [build_eth_transaction]
    writes inline: with [k = 18] for ["value"], with [k = 9] for the three
    fees. *)
Definition scale_to_int (x : Decimal) (k : Z) : result Z :=
  y ← decimal.mul x (decimal.of_int (10 ^ k)); decimal.to_int y.

(** ** Wallet *)

(** [mnemonic_to_seed]: [Mnemonic("english").to_seed(mnemonic, passphrase)].
    The constructor loads the English word list, which [to_seed] does not
    read. *)
Definition mnemonic_to_seed (U : unicodedata) (mnemonic passphrase : str)
  : result (list byte) :=
  Mnemonic.to_seed U mnemonic passphrase.

(** The message of the fallback, as the source writes it (a message is
    kept as the UTF-8 text of the literal). *)
Definition from_mnemonic_unsupported : string :=
  "Ваша версія eth-account не підтримує from_mnemonic. Оновіть пакет.".

(** [derive_account_from_mnemonic]: the state of the [Account] class is
    read and handed on; every exception inside the [try] becomes the
    [RuntimeError] of the fallback. *)
Definition derive_account_from_mnemonic (C : crypto) (mnemonic : str) (index : Z)
    (passphrase : str) (cls : AccountClass) : result (str * str) * AccountClass :=
  let account_path := lit "m/44'/60'/0'/0/" ++ str_of_int index in
  match Account.from_mnemonic C cls mnemonic passphrase account_path with
  | Ok acct => (Ok (address acct, HexBytes_hex (key acct)), cls)
  | Err _ => (Err (RuntimeError from_mnemonic_unsupported), cls)
  end.

(** ** Transactions *)

(** [chain_id or w3.eth.chain_id]: Python's [or] takes the right operand
    when the left one is falsy, that is [None] or [0]. *)
Definition chain_id_or (chain_id : option Z) (fallback : result Z) : result Z :=
  match chain_id with
  | Some c => if c =? 0 then fallback else Ok c
  | None => fallback
  end.

Definition build_eth_transaction (w3 : Web3) (from_address to_address : str)
    (value_eth : Decimal) (gas : option Z)
    (gas_price_gwei max_priority_fee_gwei max_fee_gwei : option Decimal)
    (nonce chain_id : option Z) : result (gmap string pyobj) :=
  from_checksum ← toChecksumAddress w3 from_address;
  to_checksum ← toChecksumAddress w3 to_address;
  nonce ← match nonce with
          | None => eth_get_transaction_count w3 from_checksum
          | Some n => Ok n
          end;
  value_wei ← scale_to_int value_eth 18;
  chainId ← chain_id_or chain_id (eth_chain_id w3);
  let tx : gmap string pyobj :=
    <["chainId" := VInt chainId]>
      (<["nonce" := VInt nonce]>
         (<["value" := VInt value_wei]>
            (<["to" := VStr to_checksum]>
               (<["from" := VStr from_checksum]> ∅)))) in
  match max_fee_gwei, max_priority_fee_gwei with
  | Some max_fee, Some max_priority_fee =>
      (* EIP-1559 *)
      let tx := <["type" := VStr (lit "0x2")]> tx in
      max_fee_wei ← scale_to_int max_fee 9;
      let tx := <["maxFeePerGas" := VInt max_fee_wei]> tx in
      max_priority_wei ← scale_to_int max_priority_fee 9;
      let tx := <["maxPriorityFeePerGas" := VInt max_priority_wei]> tx in
      g ← match gas with
          | None =>
              eth_estimate_gas w3
                (filter (λ kv, kv.1 ∈ ["to"; "value"; "from"]) tx)
          | Some g => Ok g
          end;
      Ok (<["gas" := VInt g]> tx)
  | _, _ =>
      (* legacy *)
      gas_price ← match gas_price_gwei with
                  | None => eth_gas_price w3
                  | Some p => scale_to_int p 9
                  end;
      let tx := <["gasPrice" := VInt gas_price]> tx in
      g ← match gas with
          | None =>
              eth_estimate_gas w3
                (<["value" := VInt value_wei]>
                   (<["from" := VStr from_checksum]>
                      (<["to" := VStr to_checksum]> ∅)))
          | Some g => Ok g
          end;
      Ok (<["gas" := VInt g]> tx)
  end.

(** ** Message signing *)

Definition sign_message (C : crypto) (private_key_hex message : str)
  : result (gmap string pyobj) :=
  acct ← Account.from_key C private_key_hex;
  msg ← encode_defunct message;
  signed ← Account.sign_message C acct msg;
  signature_hex ← SignedMessage_getattr signed "signature" ≫= pyobj_hex;
  signer ← SignedMessage_getattr signed "address";
  Ok (<["address" := signer]>
        (<["signature" := VStr signature_hex]>
           (<["message" := VStr message]> ∅))).

Definition verify_message (C : crypto) (signature_hex message : str) (w3 : Web3)
  : result str :=
  msg ← encode_defunct message;
  Account.recover_message C msg signature_hex.

(** ** Balances *)

(** The loop of [Decimal.__truediv__] on an exact quotient:
    [while exp < ideal_exp and coeff % 10 == 0: coeff //= 10; exp += 1];
    it runs at most [ideal_exp - exp] times. *)
Fixpoint strip_zeros (steps : nat) (coeff exp : Z) : Z * Z :=
  match steps with
  | O => (coeff, exp)
  | S steps' =>
      if coeff mod 10 =? 0 then strip_zeros steps' (coeff / 10) (exp + 1)
      else (coeff, exp)
  end.

(** [Decimal.__truediv__] in the default context.  [DivisionByZero] is
    trapped; it has no constructor of its own in [exn]. *)
Definition Decimal_truediv (a b : Decimal) : result Decimal :=
  match a, b with
  | NaN _ true, _ => Err DecimalInvalidOperation
  | _, NaN _ true => Err DecimalInvalidOperation
  | NaN s false, _ => Ok (NaN s false)
  | _, NaN s false => Ok (NaN s false)
  | Infinity _, Infinity _ => Err DecimalInvalidOperation
  | Infinity s1, Finite s2 _ _ => Ok (Infinity (xorb s1 s2))
  | Finite s1 _ _, Infinity s2 => Ok (Finite (xorb s1 s2) 0 decimal.Etiny)
  | Finite s1 c1 e1, Finite s2 c2 e2 =>
      let sign := xorb s1 s2 in
      let c1 := Z.of_N c1 in
      let c2 := Z.of_N c2 in
      if c2 =? 0 then
        if c1 =? 0 then Err DecimalInvalidOperation
        else Err (LibraryError "decimal.DivisionByZero")
      else if c1 =? 0 then decimal.fix_ sign 0 (e1 - e2)
      else
        let shift := decimal.ndigits c2 - decimal.ndigits c1 + decimal.prec + 1 in
        let exp := e1 - e2 - shift in
        let '(coeff, remainder) :=
          if 0 <=? shift then ((c1 * 10 ^ shift) / c2, (c1 * 10 ^ shift) mod c2)
          else (c1 / (c2 * 10 ^ (- shift)), c1 mod (c2 * 10 ^ (- shift))) in
        let '(coeff, exp) :=
          if remainder =? 0 then
            let ideal_exp := e1 - e2 in
            strip_zeros (Z.to_nat (ideal_exp - exp)) coeff exp
          else ((if coeff mod 5 =? 0 then coeff + 1 else coeff), exp) in
        decimal.fix_ sign coeff exp
  end.

(** [wei_to_eth]: [Decimal(wei) / Decimal(10**18)] *)
Definition wei_to_eth (wei : Z) : result Decimal :=
  Decimal_truediv (decimal.of_int wei) (decimal.of_int (10 ^ 18)).

(** ** Balances *)

(** [try: x = e / except Exception: x = default] *)
Definition try_or {A : Type} (r : result A) (default : A) : A :=
  match r with
  | Ok a => a
  | Err _ => default
  end.

(** A contract object made with [ERC20_ABI_FRAGMENT]: what the [call()] of
    each of its three functions answers.  The ABI decoder gives unsigned
    integers ([uint256], [uint8]). *)
Record ERC20 : Type := {
  balanceOf : str -> result N;
  decimals : result N;
  symbol : result str
}.

(** The reads of [w3.eth] behind the balances: [get_balance] and the
    contract found at an address. *)
Record Eth : Type := {
  eth_get_balance : str -> result Z;
  eth_contract : str -> ERC20
}.


(** [get_erc20_balance] *)
Definition get_erc20_balance (w3 : Web3) (eth : Eth) (token_address user_address : str)
  : result (Decimal * N * str) :=
  token ← toChecksumAddress w3 token_address;
  let contract := eth_contract eth token in
  user ← toChecksumAddress w3 user_address;
  raw ← balanceOf contract user;
  let decs := try_or (decimals contract) 18%N in
  let sym := try_or (symbol contract) [] in
  scaled ← Decimal_truediv (decimal.of_int (Z.of_N raw))
                           (decimal.of_int (10 ^ Z.of_N decs));
  Ok (scaled, decs, sym).

(** ** Command handlers of the wallet *)

(** Standard output: what each [print] wrote, oldest first.  It is taken
    to accept every string. *)
Definition stdout : Type := list str.

(** [safe_print] *)
Definition safe_print (msg : str) (out : stdout) : stdout := out ++ [msg].

(** [x or ""] for an optional command-line string. *)
Definition or_empty (x : option str) : str :=
  match x with
  | Some s => s
  | None => []
  end.

(** The arguments of [generate]: [--long], [--passphrase]. *)
Record generate_args : Type := {
  generate_long : bool;
  generate_passphrase : option str
}.

(** The arguments of [derive]: [--mnemonic], [--count], [--passphrase]. *)
Record derive_args : Type := {
  derive_mnemonic : option str;
  derive_count : Z;
  derive_passphrase : option str
}.

(** [for i in range(start, start + n): addr, pk = derive(...); print(line)];
    an exception ends the loop and the handler. *)
Fixpoint derive_each (C : crypto) (mnemonic passphrase : str)
    (line : Z -> str -> str -> str) (n : nat) (i : Z)
    (cls : AccountClass) (out : stdout) : result unit * AccountClass * stdout :=
  match n with
  | O => (Ok tt, cls, out)
  | S n' =>
      match derive_account_from_mnemonic C mnemonic i passphrase cls with
      | (Ok (addr, pk), cls) =>
          derive_each C mnemonic passphrase line n' (i + 1) cls
            (safe_print (line i addr pk) out)
      | (Err e, cls) => (Err e, cls, out)
      end
  end.

(** The last line of [cmd_generate], a line feed and a sentence in
    Ukrainian ("keep the mnemonic in a safe place"), as code points. *)
Definition keep_it_safe : str :=
  [10; 1047; 1073; 1077; 1088; 1077; 1078; 1110; 1090; 1100; 32; 1084;
   1085; 1077; 1084; 1086; 1085; 1110; 1082; 1091; 32; 1091; 32; 1073;
   1077; 1079; 1087; 1077; 1095; 1085; 1086; 1084; 1091; 32; 1084; 1110;
   1089; 1094; 1110; 46]%N.

(** [cmd_generate]; [generate_mnemonic] stands for the function of that
    name, whose words are drawn at random by the [mnemonic] package. *)
Definition cmd_generate (C : crypto) (generate_mnemonic : Z -> str) (args : generate_args)
    (cls : AccountClass) (out : stdout) : result unit * AccountClass * stdout :=
  let strength := if negb (generate_long args) then 128 else 256 in
  let mnemonic := generate_mnemonic strength in
  let out := safe_print (lit "=== MNEMONIC (KEEP IT SECRET!) ===") out in
  let out := safe_print mnemonic out in
  let out := safe_print [] out in
  let out := safe_print (lit "Deriving first 3 addresses:") out in
  match
    derive_each C mnemonic (or_empty (generate_passphrase args))
      (fun i addr _ => lit "[" ++ str_of_int i ++ lit "] " ++ addr
                       ++ lit "  (private key HIDDEN)")
      3 0 cls out
  with
  | (Ok _, cls, out) =>
      (Ok tt, cls, safe_print keep_it_safe out)
  | (Err e, cls, out) => (Err e, cls, out)
  end.

(** [cmd_derive]; [typed] is what [getpass] reads when no mnemonic came
    with the arguments. *)
Definition cmd_derive (C : crypto) (typed : result str) (args : derive_args)
    (cls : AccountClass) (out : stdout) : result unit * AccountClass * stdout :=
  match
    match derive_mnemonic args with
    | Some (c :: m) => Ok (c :: m)
    | _ => typed
    end
  with
  | Ok mnemonic =>
      derive_each C mnemonic (or_empty (derive_passphrase args))
        (fun i addr pk => str_of_int i ++ lit ": " ++ addr ++ lit "  (privkey: "
                          ++ pk ++ lit ")")
        (Z.to_nat (derive_count args)) 0 cls out
  | Err e => (Err e, cls, out)
  end.

(** * Vocabulary of the statements *)

(** The dictionaries the builder can return, and the skeleton it hands to
    [estimate_gas]. *)
Definition base_tx (from_checksum to_checksum : str) (v n c : Z) : gmap string pyobj :=
  <["chainId" := VInt c]>
    (<["nonce" := VInt n]>
       (<["value" := VInt v]>
          (<["to" := VStr to_checksum]>
             (<["from" := VStr from_checksum]> ∅)))).

Definition legacy_tx (from_checksum to_checksum : str) (v n c p g : Z) : gmap string pyobj :=
  <["gas" := VInt g]> (<["gasPrice" := VInt p]> (base_tx from_checksum to_checksum v n c)).

Definition fee_market_tx (from_checksum to_checksum : str) (v n c mf mp g : Z) : gmap string pyobj :=
  <["gas" := VInt g]>
    (<["maxPriorityFeePerGas" := VInt mp]>
       (<["maxFeePerGas" := VInt mf]>
          (<["type" := VStr (lit "0x2")]> (base_tx from_checksum to_checksum v n c)))).

Definition tx_skeleton (from_checksum to_checksum : str) (v : Z) : gmap string pyobj :=
  <["value" := VInt v]> (<["from" := VStr from_checksum]> (<["to" := VStr to_checksum]> ∅)).

(** [nonce], or the node's transaction count when it is [None]. *)
Definition resolve_nonce (w3 : Web3) (nonce : option Z) (from_checksum : str) : result Z :=
  match nonce with
  | None => eth_get_transaction_count w3 from_checksum
  | Some n => Ok n
  end.

(** [gas], or the node's estimate when it is [None]. *)
Definition resolve_gas (w3 : Web3) (gas : option Z) (skeleton : gmap string pyobj) : result Z :=
  match gas with
  | None => eth_estimate_gas w3 skeleton
  | Some g => Ok g
  end.

(** The legacy gas price: the caller's, in wei, or the node's. *)
Definition resolve_gas_price (w3 : Web3) (gas_price_gwei : option Decimal) : result Z :=
  match gas_price_gwei with
  | None => eth_gas_price w3
  | Some p => scale_to_int p 9
  end.

(** The steps every call goes through before the fee branch. *)
Definition prefix_ok (w3 : Web3) (from_address to_address : str) (value_eth : Decimal)
    (nonce chain_id : option Z) (fa ta : str) (v n c : Z) : Prop :=
  toChecksumAddress w3 from_address = Ok fa /\
  toChecksumAddress w3 to_address = Ok ta /\
  resolve_nonce w3 nonce fa = Ok n /\
  scale_to_int value_eth 18 = Ok v /\
  chain_id_or chain_id (eth_chain_id w3) = Ok c.

(** A node client that answers with constants and accepts every address. *)
Definition fake_w3 : Web3 := {|
  toChecksumAddress := fun a => Ok a;
  eth_get_transaction_count := fun _ => Ok 7;
  eth_chain_id := Ok 1;
  eth_gas_price := Ok 30000000000;
  eth_estimate_gas := fun _ => Ok 21000
|}.

Definition alice : str := lit "0xA11CE".
Definition bob : str := lit "0xB0B".
Definition one_and_a_half : Decimal := Finite false 15 (-1).
Definition two_and_a_half : Decimal := Finite false 25 (-1).

(** Key sets. *)
Definition legacy_keys : gset string :=
  {[ "from"; "to"; "value"; "nonce"; "chainId"; "gasPrice"; "gas" ]}.
Definition fee_market_keys : gset string :=
  {[ "from"; "to"; "value"; "nonce"; "chainId"; "type"; "maxFeePerGas";
     "maxPriorityFeePerGas"; "gas" ]}.

(** The two variants of the specification's data model, field by field
    ([gasLimit] is the key ["gas"] of a web3 transaction dictionary). *)
Definition spec_Legacy_fields : gset string :=
  {[ "nonce"; "gasPrice"; "gas"; "to"; "value"; "data"; "chainId" ]}.
Definition spec_FeeMarket_fields : gset string :=
  {[ "nonce"; "maxPriorityFeePerGas"; "maxFeePerGas"; "gas"; "to"; "value";
     "data"; "chainId" ]}.

(** [c * 10^x] for a coefficient [c] and a (possibly negative) power [x],
    cut to an integer: the exact product when [0 <= x]. *)
Definition scaled (c : Z) (x : Z) : Z :=
  if 0 <=? x then c * 10 ^ x else c / 10 ^ (- x).

Definition signed (sign : bool) (n : Z) : Z := if sign then - n else n.

(** What [to_seed] hands to PBKDF2. *)
Definition seed_password (U : unicodedata) (mnemonic : str) : result (list byte) :=
  encode_utf8 (Mnemonic.normalize_string U mnemonic).
Definition seed_salt (U : unicodedata) (passphrase : str) : result (list byte) :=
  encode_utf8 (lit "mnemonic" ++ Mnemonic.normalize_string U passphrase).

(** The words of a mnemonic, as [Mnemonic.check] takes them. *)
Definition mnemonic_words (U : unicodedata) (mnemonic : str) : list str :=
  split_on 32 (Mnemonic.normalize_string U mnemonic).

Definition has_unlisted_word (U : unicodedata) (wordlist : list str) (mnemonic : str) : Prop :=
  exists w, w ∈ mnemonic_words U mnemonic /\ w ∉ wordlist.

(** A word longer than every word of a list. *)
Definition longest (l : list str) : nat := foldr Nat.max 0%nat (length <$> l).
Definition fresh_word (l : list str) : str := replicate (S (longest l)) 120%N.

Definition lone_surrogate : str := [0xD800%N].

Definition not_a_mnemonic : str := lit "correct horse battery staple".

(** [verifyMessage(signMessage(k, m).signature, m)] *)
Definition sign_then_verify (C : crypto) (private_key_hex message : str) (w3 : Web3)
  : result str :=
  signed ← sign_message C private_key_hex message;
  match signed !! "signature" with
  | Some (VStr signature_hex) => verify_message C signature_hex message w3
  | _ => Err (LibraryError "KeyError: 'signature'")
  end.

(** A node client that answers the transaction count with [f] and is [w3]
    otherwise. *)
Definition with_transaction_count (f : str -> result Z) (w3 : Web3) : Web3 :=
  {| toChecksumAddress := toChecksumAddress w3;
     eth_get_transaction_count := f;
     eth_chain_id := eth_chain_id w3;
     eth_gas_price := eth_gas_price w3;
     eth_estimate_gas := eth_estimate_gas w3 |}.

(** A node client that estimates gas with [f] and is [w3] otherwise. *)
Definition with_estimate_gas (f : gmap string pyobj -> result Z) (w3 : Web3) : Web3 :=
  {| toChecksumAddress := toChecksumAddress w3;
     eth_get_transaction_count := eth_get_transaction_count w3;
     eth_chain_id := eth_chain_id w3;
     eth_gas_price := eth_gas_price w3;
     eth_estimate_gas := f |}.

(** A node client whose gas price is [p] and is [w3] otherwise. *)
Definition with_gas_price (p : result Z) (w3 : Web3) : Web3 :=
  {| toChecksumAddress := toChecksumAddress w3;
     eth_get_transaction_count := eth_get_transaction_count w3;
     eth_chain_id := eth_chain_id w3;
     eth_gas_price := p;
     eth_estimate_gas := eth_estimate_gas w3 |}.

(** A node that cannot be reached for the named query. *)
Definition unavailable {A} : result A := Err (LibraryError "node unavailable").

(** A validator that accepts only strings of 42 characters. *)
Definition strict_w3 : Web3 :=
  {| toChecksumAddress := fun a =>
       if Nat.eqb (length a) 42 then Ok a
       else Err (ValueError "invalid address");
     eth_get_transaction_count := fun _ => Ok 7;
     eth_chain_id := Ok 1;
     eth_gas_price := Ok 30000000000;
     eth_estimate_gas := fun _ => Ok 21000 |}.

(** The error [int(x * Decimal(10**k))] raises on a value that is not
    finite. *)
Definition non_finite_error (x : Decimal) : option exn :=
  match x with
  | Finite _ _ _ => None
  | NaN _ true => Some DecimalInvalidOperation
  | NaN _ false => Some (ValueError "cannot convert NaN to integer")
  | Infinity _ => Some (OverflowError "cannot convert Infinity to integer")
  end.

(** Does the string start with ["0x"] or ["0X"]? *)
Definition has_hex_prefix (s : str) : bool :=
  match s with
  | 48%N :: 120%N :: _ => true
  | 48%N :: 88%N :: _ => true
  | _ => false
  end.

(** Is some character no hexadecimal digit? *)
Definition has_non_hex (s : str) : bool :=
  existsb (fun c => match hex_value c with Some _ => false | None => true end) s.

(** A back end for tests, which shows what reached it: the address of a
    key is its hexadecimal digits, recovery answers with the digits of the
    signature bytes, and the key derived from a mnemonic is the text of
    the derivation path; the empty mnemonic and every key string are
    refused. *)
Definition tracing_crypto : crypto :=
  {| parse_private_key := fun _ => Err (ValueError "not a private key");
     private_key_to_address := fun k => bytes_hex k;
     sign_message_hash := fun _ _ =>
       {| messageHash := []; r := 0; s := 0; v := 0; signature := [] |};
     recover_signer := fun _ sig => Ok (bytes_hex sig);
     key_from_mnemonic := fun mnemonic _ account_path =>
       match mnemonic with
       | [] => Err (ValueError "not a mnemonic")
       | _ => Ok (byte_of_N <$> account_path)
       end |}.

(** The fixed part of the header. *)
Definition header_prefix : list byte :=
  [x74; x68; x65; x72; x65; x75; x6d; x20; x53; x69; x67; x6e; x65; x64; x20;
   x4d; x65; x73; x73; x61; x67; x65; x3a; x0a].

Definition hdwallet_enabled : AccountClass :=
  {| use_unaudited_hdwallet_features := true |}.

(** The number a string of decimal digits stands for, continuing from
    [acc]. *)
Definition value_of_digits (s : str) (acc : N) : N :=
  fold_left (fun a c => 10 * a + (c - 48))%N s acc.

(** A token contract that answers [balanceOf] and nothing else. *)
Definition bare_token : ERC20 :=
  {| balanceOf := fun _ => Ok 1234567%N;
     decimals := Err (LibraryError "execution reverted");
     symbol := Err (LibraryError "execution reverted") |}.

(** A token with six decimals. *)
Definition six_decimals_token : ERC20 :=
  {| balanceOf := fun _ => Ok 2500000%N;
     decimals := Ok 6%N;
     symbol := Ok (lit "USDX") |}.

(** A node that holds one balance and one contract at every address. *)
Definition fake_eth (token : ERC20) : Eth :=
  {| eth_get_balance := fun _ => Ok 1500000000000000000;
     eth_contract := fun _ => token |}.

(** The line [cmd_derive] prints for an account. *)
Definition derive_line (i : Z) (account : str * str) : str :=
  str_of_int i ++ lit ": " ++ account.1 ++ lit "  (privkey: " ++ account.2 ++ lit ")".

(** * Properties *)

(** ** The transaction builder *)

Lemma bind_Ok {A B} (r : result A) (f : A -> result B) (b : B) :
  r ≫= f = Ok b -> exists a, r = Ok a /\ f a = Ok b.
Proof. destruct r as [a|e]; simpl; [eauto | discriminate]. Qed.

Tactic Notation "bind_inv" hyp(H) "as" ident(a) ident(Ha) :=
  apply bind_Ok in H; destruct H as (a & Ha & H).

Lemma skeleton_of_fee_market_prefix fa ta v n c mf mp :
  filter (λ kv : string * pyobj, kv.1 ∈ ["to"; "value"; "from"])
    (<["maxPriorityFeePerGas" := VInt mp]>
       (<["maxFeePerGas" := VInt mf]>
          (<["type" := VStr (lit "0x2")]> (base_tx fa ta v n c))))
  = tx_skeleton fa ta v.
Proof.
  unfold tx_skeleton, base_tx. apply map_eq; intros k.
  rewrite map_lookup_filter.
  repeat (rewrite lookup_insert; case_decide; subst); simpl; try done.
Qed.

Lemma skeleton_of_legacy fa ta v :
  (<["value" := VInt v]> (<["from" := VStr fa]> (<["to" := VStr ta]> ∅)) : gmap string pyobj)
  = tx_skeleton fa ta v.
Proof. reflexivity. Qed.

Section Builder.
Variable w3 : Web3.
Variables from_address to_address : str.
Variable value_eth : Decimal.
Variables gas nonce chain_id : option Z.
Variable gas_price_gwei : option Decimal.

Lemma build_legacy_ok mpf mf fa ta v n c p g :
  ~ (is_Some mf /\ is_Some mpf) ->
  prefix_ok w3 from_address to_address value_eth nonce chain_id fa ta v n c ->
  resolve_gas_price w3 gas_price_gwei = Ok p ->
  resolve_gas w3 gas (tx_skeleton fa ta v) = Ok g ->
  build_eth_transaction w3 from_address to_address value_eth gas
    gas_price_gwei mpf mf nonce chain_id = Ok (legacy_tx fa ta v n c p g).
Proof.
  intros Hnot (Hfa & Hta & Hn & Hv & Hc) Hp Hg.
  unfold build_eth_transaction, resolve_nonce, resolve_gas_price, resolve_gas in *.
  rewrite Hfa; simpl. rewrite Hta; simpl. rewrite Hn; simpl.
  rewrite Hv; simpl. rewrite Hc; simpl.
  assert (Hleg : forall (X : result (gmap string pyobj)) Y,
             match mf, mpf with Some a, Some b => Y a b | _, _ => X end = X).
  { intros X Y. destruct mf, mpf; try reflexivity.
    exfalso; apply Hnot; split; eauto. }
  rewrite Hleg. rewrite Hp; simpl.
  rewrite skeleton_of_legacy, Hg; simpl. reflexivity.
Qed.

Lemma build_fee_market_ok max_priority max_fee fa ta v n c mf mp g :
  prefix_ok w3 from_address to_address value_eth nonce chain_id fa ta v n c ->
  scale_to_int max_fee 9 = Ok mf ->
  scale_to_int max_priority 9 = Ok mp ->
  resolve_gas w3 gas (tx_skeleton fa ta v) = Ok g ->
  build_eth_transaction w3 from_address to_address value_eth gas
    gas_price_gwei (Some max_priority) (Some max_fee) nonce chain_id
  = Ok (fee_market_tx fa ta v n c mf mp g).
Proof.
  intros (Hfa & Hta & Hn & Hv & Hc) Hmf Hmp Hg.
  unfold build_eth_transaction, resolve_nonce, resolve_gas in *.
  rewrite Hfa; simpl. rewrite Hta; simpl. rewrite Hn; simpl.
  rewrite Hv; simpl. rewrite Hc; simpl.
  rewrite Hmf; simpl. rewrite Hmp; simpl.
  fold (base_tx fa ta v n c).
  rewrite skeleton_of_fee_market_prefix, Hg; simpl. reflexivity.
Qed.

(** Whatever the builder returns went through one of the two branches. *)
Lemma build_eth_transaction_inv mpf mf tx :
  build_eth_transaction w3 from_address to_address value_eth gas
    gas_price_gwei mpf mf nonce chain_id = Ok tx ->
  exists fa ta v n c g,
    prefix_ok w3 from_address to_address value_eth nonce chain_id fa ta v n c /\
    resolve_gas w3 gas (tx_skeleton fa ta v) = Ok g /\
    ((exists max_fee max_priority mfw mpw,
         mf = Some max_fee /\ mpf = Some max_priority /\
         scale_to_int max_fee 9 = Ok mfw /\
         scale_to_int max_priority 9 = Ok mpw /\
         tx = fee_market_tx fa ta v n c mfw mpw g)
     \/ (~ (is_Some mf /\ is_Some mpf) /\
         exists p, resolve_gas_price w3 gas_price_gwei = Ok p /\
                   tx = legacy_tx fa ta v n c p g)).
Proof.
  intros H. unfold build_eth_transaction in H.
  bind_inv H as fa Hfa. bind_inv H as ta Hta. bind_inv H as n Hn.
  bind_inv H as v Hv. bind_inv H as c Hc.
  fold (base_tx fa ta v n c) in H.
  assert (Hpre : prefix_ok w3 from_address to_address value_eth nonce chain_id fa ta v n c)
    by (repeat split; assumption).
  assert (Hlegacy : ~ (is_Some mf /\ is_Some mpf) ->
            (p ← resolve_gas_price w3 gas_price_gwei;
             g ← resolve_gas w3 gas (tx_skeleton fa ta v);
             Ok (<["gas" := VInt g]> (<["gasPrice" := VInt p]> (base_tx fa ta v n c))))
            = Ok tx ->
            exists g, resolve_gas w3 gas (tx_skeleton fa ta v) = Ok g /\
              ~ (is_Some mf /\ is_Some mpf) /\
              exists p, resolve_gas_price w3 gas_price_gwei = Ok p /\
                        tx = legacy_tx fa ta v n c p g).
  { intros Hnot H'. bind_inv H' as p Hp. bind_inv H' as g Hg. injection H' as <-.
    exists g. split; [exact Hg|]. split; [exact Hnot|]. exists p. split; [exact Hp|reflexivity]. }
  destruct mf as [max_fee|], mpf as [max_priority|].
  - bind_inv H as mfw Hmfw. bind_inv H as mpw Hmpw.
    rewrite skeleton_of_fee_market_prefix in H.
    bind_inv H as g Hg. injection H as <-.
    exists fa, ta, v, n, c, g. split; [exact Hpre|]. split; [exact Hg|].
    left. exists max_fee, max_priority, mfw, mpw. repeat split; assumption.
  - destruct (Hlegacy ltac:(intros [_ [? ?]]; discriminate) H) as (g & Hg & Hrest).
    exists fa, ta, v, n, c, g. eauto.
  - destruct (Hlegacy ltac:(intros [[? ?] _]; discriminate) H) as (g & Hg & Hrest).
    exists fa, ta, v, n, c, g. eauto.
  - destruct (Hlegacy ltac:(intros [[? ?] _]; discriminate) H) as (g & Hg & Hrest).
    exists fa, ta, v, n, c, g. eauto.
Qed.
End Builder.

Lemma dom_legacy_tx fa ta v n c p g : dom (legacy_tx fa ta v n c p g) = legacy_keys.
Proof.
  unfold legacy_tx, base_tx, legacy_keys.
  rewrite !dom_insert_L, dom_empty_L; set_solver.
Qed.

Lemma dom_fee_market_tx fa ta v n c mf mp g :
  dom (fee_market_tx fa ta v n c mf mp g) = fee_market_keys.
Proof.
  unfold fee_market_tx, base_tx, fee_market_keys.
  rewrite !dom_insert_L, dom_empty_L; set_solver.
Qed.

Lemma legacy_tx_lookup fa ta v n c p g :
  legacy_tx fa ta v n c p g !! "gasPrice" = Some (VInt p) /\
  legacy_tx fa ta v n c p g !! "type" = None /\
  legacy_tx fa ta v n c p g !! "maxFeePerGas" = None /\
  legacy_tx fa ta v n c p g !! "maxPriorityFeePerGas" = None /\
  legacy_tx fa ta v n c p g !! "chainId" = Some (VInt c).
Proof. repeat split; reflexivity. Qed.

Lemma fee_market_tx_lookup fa ta v n c mf mp g :
  fee_market_tx fa ta v n c mf mp g !! "type" = Some (VStr (lit "0x2")) /\
  fee_market_tx fa ta v n c mf mp g !! "maxFeePerGas" = Some (VInt mf) /\
  fee_market_tx fa ta v n c mf mp g !! "maxPriorityFeePerGas" = Some (VInt mp) /\
  fee_market_tx fa ta v n c mf mp g !! "gasPrice" = None /\
  fee_market_tx fa ta v n c mf mp g !! "chainId" = Some (VInt c).
Proof. repeat split; reflexivity. Qed.

Ltac solve_keys :=
  rewrite ?elem_of_union, ?elem_of_singleton, ?elem_of_empty in *;
  intuition (discriminate || auto).

Lemma fake_prefix_ok nonce chain_id n c :
  resolve_nonce fake_w3 nonce alice = Ok n ->
  chain_id_or chain_id (eth_chain_id fake_w3) = Ok c ->
  prefix_ok fake_w3 alice bob one_and_a_half nonce chain_id
    alice bob 1500000000000000000 n c.
Proof. intros Hn Hc. repeat split; [exact Hn | exact Hc]. Qed.

(** The fake node prices a call without fee parameters itself. *)
Lemma fake_build_without_fees chain_id c :
  chain_id_or chain_id (Ok 1) = Ok c ->
  build_eth_transaction fake_w3 alice bob one_and_a_half None None None None None chain_id
  = Ok (legacy_tx alice bob 1500000000000000000 7 c 30000000000 21000).
Proof.
  intros Hc. apply build_legacy_ok.
  - intros [[? ?] _]; discriminate.
  - apply fake_prefix_ok; [reflexivity | exact Hc].
  - reflexivity.
  - reflexivity.
Qed.

Lemma gasPrice_not_fee_market : "gasPrice" ∉ fee_market_keys.
Proof. unfold fee_market_keys. solve_keys. Qed.

Lemma fee_market_fields_not_legacy :
  ("type" ∉ legacy_keys) /\ ("maxFeePerGas" ∉ legacy_keys) /\
  ("maxPriorityFeePerGas" ∉ legacy_keys).
Proof. unfold legacy_keys. repeat split; solve_keys. Qed.

(** *** Fee-variant selection (C2) *)

(** C2, as the specification states it, is refuted: a call that supplies
    neither a gas price nor any fee-market parameter does not fail; it
    returns a legacy transaction priced by the node. *)
Lemma no_fee_params_builds_legacy_counterexample :
  build_eth_transaction fake_w3 alice bob one_and_a_half None None None None None None
  = Ok (legacy_tx alice bob 1500000000000000000 7 1 30000000000 21000).
Proof. apply fake_build_without_fees. reflexivity. Qed.

(** C2 (amended): when the address checks, the conversions and the node
    calls a call needs succeed, (a) supplying both [max_fee_gwei] and
    [max_priority_fee_gwei] yields the fee-market dictionary (type ["0x2"],
    [maxFeePerGas], [maxPriorityFeePerGas], no [gasPrice]); (b) supplying only
    [gas_price_gwei] yields the legacy dictionary ([gasPrice], no [type]);
    (c) supplying no gas price and no complete fee-market pair also yields
    the legacy dictionary, with the node's gas price: no error is raised for
    missing fee parameters. *)
Theorem fee_variant_selection
    (w3 : Web3) (from_address to_address : str) (value_eth : Decimal)
    (gas nonce chain_id : option Z) (fa ta : str) (v n c g : Z) :
  prefix_ok w3 from_address to_address value_eth nonce chain_id fa ta v n c ->
  resolve_gas w3 gas (tx_skeleton fa ta v) = Ok g ->
  (forall gas_price_gwei max_priority max_fee mfw mpw,
      scale_to_int max_fee 9 = Ok mfw ->
      scale_to_int max_priority 9 = Ok mpw ->
      exists tx,
        build_eth_transaction w3 from_address to_address value_eth gas
          gas_price_gwei (Some max_priority) (Some max_fee) nonce chain_id = Ok tx /\
        tx = fee_market_tx fa ta v n c mfw mpw g /\
        tx !! "type" = Some (VStr (lit "0x2")) /\
        tx !! "maxFeePerGas" = Some (VInt mfw) /\
        tx !! "maxPriorityFeePerGas" = Some (VInt mpw) /\
        tx !! "gasPrice" = None) /\
  (forall gas_price p,
      scale_to_int gas_price 9 = Ok p ->
      exists tx,
        build_eth_transaction w3 from_address to_address value_eth gas
          (Some gas_price) None None nonce chain_id = Ok tx /\
        tx = legacy_tx fa ta v n c p g /\
        tx !! "gasPrice" = Some (VInt p) /\
        tx !! "type" = None /\
        tx !! "maxFeePerGas" = None /\
        tx !! "maxPriorityFeePerGas" = None) /\
  (forall mpf mf p,
      ~ (is_Some mf /\ is_Some mpf) ->
      eth_gas_price w3 = Ok p ->
      exists tx,
        build_eth_transaction w3 from_address to_address value_eth gas
          None mpf mf nonce chain_id = Ok tx /\
        tx = legacy_tx fa ta v n c p g /\
        tx !! "gasPrice" = Some (VInt p) /\
        tx !! "type" = None).
Proof.
  intros Hpre Hg. split; [|split].
  - intros gp max_priority max_fee mfw mpw Hmf Hmp.
    exists (fee_market_tx fa ta v n c mfw mpw g).
    split; [eapply build_fee_market_ok; eassumption|].
    split; [reflexivity|].
    destruct (fee_market_tx_lookup fa ta v n c mfw mpw g) as (? & ? & ? & ? & _).
    auto.
  - intros gp p Hp.
    exists (legacy_tx fa ta v n c p g).
    split.
    { eapply build_legacy_ok; try eassumption.
      intros [[? ?] _]; discriminate. }
    split; [reflexivity|].
    destruct (legacy_tx_lookup fa ta v n c p g) as (? & ? & ? & ? & _).
    auto.
  - intros mpf mf p Hnot Hp.
    exists (legacy_tx fa ta v n c p g).
    split; [eapply build_legacy_ok; eassumption|].
    split; [reflexivity|].
    destruct (legacy_tx_lookup fa ta v n c p g) as (? & ? & _).
    auto.
Qed.

Lemma fee_variant_selection_witness :
  (exists tx,
      build_eth_transaction fake_w3 alice bob one_and_a_half None None
        (Some one_and_a_half) (Some two_and_a_half) None None = Ok tx /\
      tx !! "type" = Some (VStr (lit "0x2")) /\
      tx !! "maxFeePerGas" = Some (VInt 2500000000) /\
      tx !! "maxPriorityFeePerGas" = Some (VInt 1500000000)) /\
  (exists tx,
      build_eth_transaction fake_w3 alice bob one_and_a_half None
        (Some two_and_a_half) None None None None = Ok tx /\
      tx !! "gasPrice" = Some (VInt 2500000000) /\ tx !! "type" = None) /\
  (exists tx,
      build_eth_transaction fake_w3 alice bob one_and_a_half None
        None None None None None = Ok tx /\
      tx !! "gasPrice" = Some (VInt 30000000000) /\ tx !! "type" = None).
Proof.
  destruct (fee_variant_selection fake_w3 alice bob one_and_a_half None None None
              alice bob 1500000000000000000 7 1 21000
              (fake_prefix_ok None None 7 1 eq_refl eq_refl) eq_refl)
    as (Ha & Hb & Hc).
  split; [|split].
  - destruct (Ha None one_and_a_half two_and_a_half 2500000000 1500000000 eq_refl eq_refl)
      as (tx & H1 & _ & H2 & H3 & H4 & _).
    exists tx. auto.
  - destruct (Hb two_and_a_half 2500000000 eq_refl) as (tx & H1 & _ & H2 & H3 & _).
    exists tx. auto.
  - destruct (Hc None None 30000000000 ltac:(intros [[? ?] _]; discriminate) eq_refl)
      as (tx & H1 & _ & H2 & H3).
    exists tx. auto.
Defined.

(** *** The shape of the returned record (C7) *)

(** C7, as stated, is refuted: the returned dictionary carries a ["from"]
    key and no ["data"] key, so its set of fields is neither of the two
    variants of the data model. *)
Lemma returned_record_not_data_model_counterexample :
  exists tx,
    build_eth_transaction fake_w3 alice bob one_and_a_half None None None None None None
    = Ok tx /\
    dom tx ≠ spec_Legacy_fields /\ dom tx ≠ spec_FeeMarket_fields /\
    "from" ∈ dom tx /\ "data" ∉ dom tx.
Proof.
  exists (legacy_tx alice bob 1500000000000000000 7 1 30000000000 21000).
  split; [apply fake_build_without_fees; reflexivity|].
  rewrite dom_legacy_tx.
  assert (Hfrom : "from" ∈ legacy_keys) by (unfold legacy_keys; set_solver).
  split; [|split; [|split]].
  - intros H. rewrite H in Hfrom. unfold spec_Legacy_fields in Hfrom. solve_keys.
  - intros H. rewrite H in Hfrom. unfold spec_FeeMarket_fields in Hfrom. solve_keys.
  - exact Hfrom.
  - unfold legacy_keys. solve_keys.
Qed.

(** C7 (amended): every dictionary the builder returns has exactly the keys
    [from, to, value, nonce, chainId, gasPrice, gas] (when the fee-market
    pair is incomplete) or exactly the keys [from, to, value, nonce, chainId,
    type, maxFeePerGas, maxPriorityFeePerGas, gas] (when both fee-market
    parameters are supplied); a dictionary with [gasPrice] has none of
    [type], [maxFeePerGas], [maxPriorityFeePerGas]. *)
Theorem returned_record_keys
    (w3 : Web3) (from_address to_address : str) (value_eth : Decimal)
    (gas : option Z) (gas_price_gwei mpf mf : option Decimal)
    (nonce chain_id : option Z) (tx : gmap string pyobj) :
  build_eth_transaction w3 from_address to_address value_eth gas
    gas_price_gwei mpf mf nonce chain_id = Ok tx ->
  ((dom tx = legacy_keys /\ ~ (is_Some mf /\ is_Some mpf)) \/
   (dom tx = fee_market_keys /\ is_Some mf /\ is_Some mpf)) /\
  (("gasPrice" ∈ dom tx) ->
   ("type" ∉ dom tx) /\ ("maxFeePerGas" ∉ dom tx) /\ ("maxPriorityFeePerGas" ∉ dom tx)).
Proof.
  intros H.
  apply build_eth_transaction_inv in H
    as (fa & ta & v & n & c & g & _ & _ & [Hfee | Hleg]).
  - destruct Hfee as (max_fee & max_priority & mfw & mpw & -> & -> & _ & _ & ->).
    rewrite dom_fee_market_tx. split.
    + right. split; [reflexivity|]. split; eauto.
    + intros Hin. destruct (gasPrice_not_fee_market Hin).
  - destruct Hleg as (Hnot & p & _ & ->).
    rewrite dom_legacy_tx. split.
    + left. split; [reflexivity | exact Hnot].
    + intros _. exact fee_market_fields_not_legacy.
Qed.

Lemma returned_record_keys_witness :
  dom (legacy_tx alice bob 1500000000000000000 7 1 30000000000 21000) = legacy_keys \/
  dom (legacy_tx alice bob 1500000000000000000 7 1 30000000000 21000) = fee_market_keys.
Proof.
  destruct (returned_record_keys fake_w3 alice bob one_and_a_half None None None None
              None None _ (fake_build_without_fees None 1 eq_refl))
    as ([[H _] | [H _]] & _); [left | right]; exact H.
Defined.

(** *** An incomplete fee-market pair (C8) *)

Lemma build_ignores_incomplete_pair
    (w3 : Web3) (from_address to_address : str) (value_eth : Decimal)
    (gas : option Z) (gas_price_gwei mpf mf : option Decimal)
    (nonce chain_id : option Z) :
  ~ (is_Some mf /\ is_Some mpf) ->
  build_eth_transaction w3 from_address to_address value_eth gas
    gas_price_gwei mpf mf nonce chain_id
  = build_eth_transaction w3 from_address to_address value_eth gas
      gas_price_gwei None None nonce chain_id.
Proof.
  intros Hnot. unfold build_eth_transaction.
  destruct mf as [?|], mpf as [?|]; try reflexivity.
  exfalso. apply Hnot. split; eauto.
Qed.

(** C8: a call that supplies exactly one of [max_fee_gwei] and
    [max_priority_fee_gwei] behaves as the call that supplies neither (the
    parameter is discarded, not even converted), and when the address
    checks, the conversions and the node calls of the legacy path succeed
    it returns the legacy dictionary whose [gasPrice] is [gas_price_gwei] in
    wei when given and the node's gas price otherwise. *)
Theorem incomplete_fee_pair_builds_legacy
    (w3 : Web3) (from_address to_address : str) (value_eth : Decimal)
    (gas : option Z) (gas_price_gwei mpf mf : option Decimal)
    (nonce chain_id : option Z) (fa ta : str) (v n c p g : Z) :
  (is_Some mf /\ mpf = None) \/ (mf = None /\ is_Some mpf) ->
  prefix_ok w3 from_address to_address value_eth nonce chain_id fa ta v n c ->
  match gas_price_gwei with
  | Some x => scale_to_int x 9
  | None => eth_gas_price w3
  end = Ok p ->
  resolve_gas w3 gas (tx_skeleton fa ta v) = Ok g ->
  build_eth_transaction w3 from_address to_address value_eth gas
    gas_price_gwei mpf mf nonce chain_id
  = build_eth_transaction w3 from_address to_address value_eth gas
      gas_price_gwei None None nonce chain_id /\
  exists tx,
    build_eth_transaction w3 from_address to_address value_eth gas
      gas_price_gwei mpf mf nonce chain_id = Ok tx /\
    tx = legacy_tx fa ta v n c p g /\
    tx !! "gasPrice" = Some (VInt p) /\
    tx !! "type" = None /\
    tx !! "maxFeePerGas" = None /\
    tx !! "maxPriorityFeePerGas" = None.
Proof.
  intros Hone Hpre Hp Hg.
  assert (Hnot : ~ (is_Some mf /\ is_Some mpf)).
  { intros [[? ?] [? ?]]. destruct Hone as [[_ ?] | [? _]]; congruence. }
  split; [apply build_ignores_incomplete_pair; exact Hnot|].
  exists (legacy_tx fa ta v n c p g).
  split.
  { eapply build_legacy_ok; eassumption. }
  split; [reflexivity|].
  destruct (legacy_tx_lookup fa ta v n c p g) as (? & ? & ? & ? & _). auto.
Qed.

Lemma incomplete_fee_pair_builds_legacy_witness :
  (exists tx,
      build_eth_transaction fake_w3 alice bob one_and_a_half None
        None None (Some two_and_a_half) None None = Ok tx /\
      tx !! "gasPrice" = Some (VInt 30000000000) /\ tx !! "maxFeePerGas" = None) /\
  (exists tx,
      build_eth_transaction fake_w3 alice bob one_and_a_half None
        (Some one_and_a_half) (Some two_and_a_half) None None None = Ok tx /\
      tx !! "gasPrice" = Some (VInt 1500000000) /\ tx !! "maxPriorityFeePerGas" = None).
Proof.
  split.
  - destruct (incomplete_fee_pair_builds_legacy fake_w3 alice bob one_and_a_half None
                None None (Some two_and_a_half) None None
                alice bob 1500000000000000000 7 1 30000000000 21000
                (or_introl (conj (ex_intro _ two_and_a_half eq_refl) eq_refl))
                (fake_prefix_ok None None 7 1 eq_refl eq_refl) eq_refl eq_refl)
      as (_ & tx & H1 & _ & H2 & _ & H3 & _).
    exists tx. auto.
  - destruct (incomplete_fee_pair_builds_legacy fake_w3 alice bob one_and_a_half None
                (Some one_and_a_half) (Some two_and_a_half) None None None
                alice bob 1500000000000000000 7 1 1500000000 21000
                (or_intror (conj eq_refl (ex_intro _ two_and_a_half eq_refl)))
                (fake_prefix_ok None None 7 1 eq_refl eq_refl) eq_refl eq_refl)
      as (_ & tx & H1 & _ & H2 & _ & _ & H3).
    exists tx. auto.
Defined.

(** *** A chain id of zero (C9) *)

Lemma chain_id_zero_as_omitted
    (w3 : Web3) (from_address to_address : str) (value_eth : Decimal)
    (gas : option Z) (gas_price_gwei mpf mf : option Decimal) (nonce : option Z) :
  build_eth_transaction w3 from_address to_address value_eth gas
    gas_price_gwei mpf mf nonce (Some 0)
  = build_eth_transaction w3 from_address to_address value_eth gas
      gas_price_gwei mpf mf nonce None.
Proof. reflexivity. Qed.

Lemma build_chainId
    (w3 : Web3) (from_address to_address : str) (value_eth : Decimal)
    (gas : option Z) (gas_price_gwei mpf mf : option Decimal)
    (nonce chain_id : option Z) (tx : gmap string pyobj) :
  build_eth_transaction w3 from_address to_address value_eth gas
    gas_price_gwei mpf mf nonce chain_id = Ok tx ->
  exists c, chain_id_or chain_id (eth_chain_id w3) = Ok c /\
            tx !! "chainId" = Some (VInt c).
Proof.
  intros H.
  apply build_eth_transaction_inv in H
    as (fa & ta & v & n & c & g & (_ & _ & _ & _ & Hc) & _ & [Hfee | Hleg]);
    exists c; (split; [exact Hc|]).
  - destruct Hfee as (max_fee & max_priority & mfw & mpw & _ & _ & _ & _ & ->).
    apply fee_market_tx_lookup.
  - destruct Hleg as (_ & p & _ & ->). apply legacy_tx_lookup.
Qed.

(** C9: in the transaction returned for [chain_id = 0] the [chainId] field
    is the chain id the node reports (the call is the same as the one with
    no chain id), while every supplied non-zero chain id is stored as
    given. *)
Theorem zero_chain_id_is_replaced
    (w3 : Web3) (from_address to_address : str) (value_eth : Decimal)
    (gas : option Z) (gas_price_gwei mpf mf : option Decimal)
    (nonce chain_id : option Z) (tx : gmap string pyobj) :
  build_eth_transaction w3 from_address to_address value_eth gas
    gas_price_gwei mpf mf nonce chain_id = Ok tx ->
  (chain_id = Some 0 ->
   build_eth_transaction w3 from_address to_address value_eth gas
     gas_price_gwei mpf mf nonce None = Ok tx /\
   exists node_chain_id,
     eth_chain_id w3 = Ok node_chain_id /\
     tx !! "chainId" = Some (VInt node_chain_id)) /\
  (forall c, chain_id = Some c -> c ≠ 0 -> tx !! "chainId" = Some (VInt c)).
Proof.
  intros H. split.
  - intros ->. split; [exact H|].
    apply build_chainId in H as (c & Hc & Htx). exists c. split; assumption.
  - intros c -> Hc.
    apply build_chainId in H as (c' & Hc' & Htx).
    unfold chain_id_or in Hc'. destruct (Z.eqb_spec c 0); [contradiction|].
    injection Hc' as <-. exact Htx.
Qed.

Lemma zero_chain_id_is_replaced_witness :
  (legacy_tx alice bob 1500000000000000000 7 1 30000000000 21000) !! "chainId"
    = Some (VInt 1) /\
  (legacy_tx alice bob 1500000000000000000 7 5 30000000000 21000) !! "chainId"
    = Some (VInt 5).
Proof.
  split.
  - destruct (zero_chain_id_is_replaced fake_w3 alice bob one_and_a_half None None None None
                None (Some 0) (legacy_tx alice bob 1500000000000000000 7 1 30000000000 21000)
                (fake_build_without_fees (Some 0) 1 eq_refl)) as (H0 & _).
    destruct (H0 eq_refl) as (_ & c & Hc & Htx).
    injection Hc as <-. exact Htx.
  - destruct (zero_chain_id_is_replaced fake_w3 alice bob one_and_a_half None None None None
                None (Some 5) (legacy_tx alice bob 1500000000000000000 7 5 30000000000 21000)
                (fake_build_without_fees (Some 5) 5 eq_refl)) as (_ & Hc).
    apply (Hc 5 eq_refl). discriminate.
Defined.

(** ** Unit conversion *)

Lemma pow10_pos x : 0 <= x -> 0 < 10 ^ x.
Proof. intros. apply Z.pow_pos_nonneg; lia. Qed.

Lemma pow10_split a b : 0 <= a -> 0 <= b -> 10 ^ (a + b) = 10 ^ a * 10 ^ b.
Proof. intros. apply Z.pow_add_r; assumption. Qed.

Lemma pow10_le a b : 0 <= a <= b -> 10 ^ a <= 10 ^ b.
Proof. intros. apply Z.pow_le_mono_r; lia. Qed.

Lemma pow10_lt a b : 0 <= a < b -> 10 ^ a < 10 ^ b.
Proof. intros. apply Z.pow_lt_mono_r; lia. Qed.

Lemma div_pow10_ge c a b : 0 <= b <= a -> (c * 10 ^ a) / 10 ^ b = c * 10 ^ (a - b).
Proof.
  intros H. replace a with ((a - b) + b) at 1 by lia.
  rewrite pow10_split by lia. rewrite Z.mul_assoc.
  apply Z.div_mul. pose proof (pow10_pos b). lia.
Qed.

Lemma mod_pow10_ge c a b : 0 <= b <= a -> (c * 10 ^ a) mod 10 ^ b = 0.
Proof.
  intros H. replace a with ((a - b) + b) at 1 by lia.
  rewrite pow10_split by lia. rewrite Z.mul_assoc.
  apply Z.mod_mul. pose proof (pow10_pos b). lia.
Qed.

Lemma div_pow10_le c a b : 0 <= a <= b -> (c * 10 ^ a) / 10 ^ b = c / 10 ^ (b - a).
Proof.
  intros H. replace b with ((b - a) + a) at 1 by lia.
  rewrite pow10_split by lia.
  apply Z.div_mul_cancel_r; pose proof (pow10_pos a); pose proof (pow10_pos (b - a)); lia.
Qed.

Lemma ndigits_fuel_spec fuel : forall n,
  0 < n -> n < 2 ^ Z.of_nat fuel ->
  10 ^ (ndigits_fuel fuel n - 1) <= n < 10 ^ ndigits_fuel fuel n /\
  1 <= ndigits_fuel fuel n.
Proof.
  induction fuel as [|fuel IH]; intros n Hpos Hlt.
  - simpl in Hlt. lia.
  - cbn [ndigits_fuel]. destruct (Z.ltb_spec n 10) as [Hsmall|Hbig].
    + simpl. lia.
    + assert (Hq : 0 < n / 10) by (apply Z.div_str_pos; lia).
      assert (Hlt' : n / 10 < 2 ^ Z.of_nat fuel).
      { apply Z.div_lt_upper_bound; [lia|].
        rewrite Nat2Z.inj_succ, Z.pow_succ_r in Hlt by lia. lia. }
      destruct (IH _ Hq Hlt') as ((Hlo & Hhi) & Hd).
      set (d := ndigits_fuel fuel (n / 10)) in *.
      replace (1 + d - 1) with ((d - 1) + 1) by lia.
      replace (1 + d) with (d + 1) by lia.
      rewrite !pow10_split by lia. change (10 ^ 1) with 10.
      pose proof (Z.div_mod n 10 ltac:(lia)).
      pose proof (Z.mod_pos_bound n 10 ltac:(lia)).
      split; [split|]; lia.
Qed.

Lemma ndigits_spec n :
  0 < n -> 10 ^ (ndigits n - 1) <= n < 10 ^ ndigits n /\ 1 <= ndigits n.
Proof.
  intros Hpos. unfold ndigits. apply ndigits_fuel_spec; [assumption|].
  rewrite Nat2Z.inj_succ, Z2Nat.id by apply Z.log2_nonneg.
  apply Z.log2_spec. assumption.
Qed.

Lemma ndigits_unique n d :
  0 < n -> 1 <= d -> 10 ^ (d - 1) <= n < 10 ^ d -> ndigits n = d.
Proof.
  intros Hpos Hd [Hlo Hhi].
  destruct (ndigits_spec n Hpos) as ([Hlo' Hhi'] & Hd').
  destruct (Z.lt_trichotomy (ndigits n) d) as [Hlt | [Heq | Hgt]]; [|assumption|].
  - pose proof (pow10_le (ndigits n) (d - 1) ltac:(lia)). lia.
  - pose proof (pow10_le d (ndigits n - 1) ltac:(lia)). lia.
Qed.

Lemma ndigits_shift c k : 0 < c -> 0 <= k -> ndigits (c * 10 ^ k) = ndigits c + k.
Proof.
  intros Hc Hk.
  destruct (ndigits_spec c Hc) as ([Hlo Hhi] & Hd).
  pose proof (pow10_pos k Hk).
  apply ndigits_unique; [nia | lia |].
  replace (ndigits c + k - 1) with ((ndigits c - 1) + k) by lia.
  rewrite !pow10_split by lia. nia.
Qed.

Lemma of_int_pow10 k : 0 <= k -> decimal.of_int (10 ^ k) = Finite false (Z.to_N (10 ^ k)) 0.
Proof.
  intros Hk. pose proof (pow10_pos k Hk). unfold decimal.of_int.
  destruct (Z.ltb_spec (10 ^ k) 0); [lia|].
  f_equal. lia.
Qed.

(** Scaling a finite decimal whose coefficient fits the context precision
    loses nothing but the fraction of a unit that [int] cuts off. *)
Lemma scale_to_int_finite sign c e k :
  0 <= k <= 18 ->
  ndigits (Z.of_N c) <= decimal.prec ->
  -18 <= e ->
  ndigits (Z.of_N c) + e + k - 1 <= decimal.Emax ->
  scale_to_int (Finite sign c e) k = Ok (signed sign (scaled (Z.of_N c) (e + k))).
Proof.
  intros Hk Hprec He Hmax.
  unfold scale_to_int. rewrite of_int_pow10 by lia.
  unfold decimal.mul. rewrite Z2N.id by (pose proof (pow10_pos k); lia).
  rewrite xorb_false_r, Z.add_0_r.
  pose proof (pow10_pos k ltac:(lia)) as Hpk.
  unfold decimal.fix_.
  destruct (Z.eqb_spec (Z.of_N c * 10 ^ k) 0) as [Hz|Hnz].
  - (* zero *)
    assert (Hc : Z.of_N c = 0) by nia.
    unfold decimal.Etiny, decimal.Emin, decimal.Emax, decimal.prec in *.
    rewrite Hc in *. change (ndigits 0) with 1 in Hmax.
    rewrite Z.max_l, Z.min_l by lia.
    simpl. unfold scaled, signed.
    destruct (0 <=? e), (0 <=? e + k), sign; simpl; f_equal; try lia;
      rewrite ?Z.div_0_l; try lia;
      try (apply Z.pow_nonzero; lia).
  - assert (Hc : 0 < Z.of_N c) by nia.
    rewrite ndigits_shift by lia.
    unfold decimal.Etop, decimal.Etiny, decimal.Emin, decimal.Emax, decimal.prec in *.
    destruct (ndigits_spec _ Hc) as (_ & Hd).
    set (d := ndigits (Z.of_N c)) in *.
    destruct (Z.ltb_spec (999999 - 28 + 1) (d + k + e - 28)) as [?|_]; [lia|].
    destruct (Z.ltb_spec (d + k + e - 28) (-999999 - 28 + 1)) as [?|_]; [lia|].
    destruct (Z.ltb_spec e (d + k + e - 28)) as [Hround|Hfit].
    + (* more than 28 digits in the product: the dropped ones are zeros *)
      destruct (Z.ltb_spec (d + k + e - (d + k + e - 28)) 0) as [?|_]; [lia|].
      replace (d + k + e - 28 - e) with (d + k - 28) by lia.
      rewrite mod_pow10_ge, div_pow10_ge by lia.
      unfold decimal.round_half_even_up.
      pose proof (pow10_pos (d + k - 28) ltac:(lia)).
      destruct (Z.ltb_spec (10 ^ (d + k - 28)) (2 * 0)) as [?|_]; [lia|].
      destruct (Z.eqb_spec (2 * 0) (10 ^ (d + k - 28))) as [?|_]; [lia|].
      destruct (Z.ltb_spec (999999 - 28 + 1) (d + k + e - 28)) as [?|_]; [lia|].
      simpl.
      pose proof (pow10_pos (k - (d + k - 28)) ltac:(lia)).
      rewrite Z2N.id by nia.
      unfold scaled, signed.
      replace (k - (d + k - 28)) with (28 - d) by lia.
      destruct (Z.leb_spec 0 (d + k + e - 28)) as [Hnn|Hneg];
        destruct (Z.leb_spec 0 (e + k)) as [Hnn'|Hneg']; try lia; f_equal.
      * replace (e + k) with ((28 - d) + (d + k + e - 28)) by lia.
        rewrite pow10_split by lia. destruct sign; ring.
      * rewrite div_pow10_ge by lia.
        replace (28 - d - - (d + k + e - 28)) with (e + k) by lia.
        destruct sign; ring.
      * rewrite div_pow10_le by lia.
        replace (- (d + k + e - 28) - (28 - d)) with (- (e + k)) by lia.
        destruct sign; ring.
    + simpl. rewrite Z2N.id by nia.
      unfold scaled, signed.
      destruct (Z.leb_spec 0 e) as [Hnn|Hneg];
        destruct (Z.leb_spec 0 (e + k)) as [Hnn'|Hneg']; try lia; f_equal.
      * rewrite pow10_split by lia. destruct sign; ring.
      * rewrite div_pow10_ge by lia.
        replace (k - - e) with (e + k) by lia. destruct sign; ring.
      * rewrite div_pow10_le by lia.
        replace (- e - k) with (- (e + k)) by lia. destruct sign; ring.
Qed.

(** *** Exact conversion (C5) *)

(** What the fake node builds from an amount the conversion accepts. *)
Lemma fake_build_value value_eth v :
  scale_to_int value_eth 18 = Ok v ->
  build_eth_transaction fake_w3 alice bob value_eth None None None None None None
  = Ok (legacy_tx alice bob v 7 1 30000000000 21000).
Proof.
  intros Hv. apply build_legacy_ok.
  - intros [[? ?] _]; discriminate.
  - unfold prefix_ok. split; [reflexivity|]. split; [reflexivity|].
    split; [reflexivity|]. split; [exact Hv | reflexivity].
  - reflexivity.
  - reflexivity.
Qed.

(** C5, as stated, is refuted: 10000000000.000000000000000001 ETH has 18
    fractional digits, and the conversion the builder applies to the amount
    loses the last wei: the product has 47 digits and the context rounds it
    to 28.  The transaction built from it carries the rounded value. *)
Lemma value_conversion_rounds_counterexample :
  scale_to_int (Finite false 10000000000000000000000000001 (-18)) 18
    = Ok 10000000000000000000000000000 /\
  build_eth_transaction fake_w3 alice bob
    (Finite false 10000000000000000000000000001 (-18)) None None None None None None
    = Ok (legacy_tx alice bob 10000000000000000000000000000 7 1 30000000000 21000) /\
  (legacy_tx alice bob 10000000000000000000000000000 7 1 30000000000 21000) !! "value"
    = Some (VInt 10000000000000000000000000000) /\
  scaled 10000000000000000000000000001 (-18 + 18) = 10000000000000000000000000001.
Proof.
  assert (H : scale_to_int (Finite false 10000000000000000000000000001 (-18)) 18
              = Ok 10000000000000000000000000000) by (vm_compute; reflexivity).
  split; [exact H|]. split; [apply fake_build_value, H|].
  split; [reflexivity | vm_compute; reflexivity].
Qed.

(** C5 (amended): for a finite decimal with at most 18 fractional digits,
    at most 28 significant digits (the precision of the decimal context)
    and a product below [10^(Emax+1)], the conversion of the amount to wei,
    [int(value_eth * Decimal(10**18))], returns exactly the value times
    [10^18]; the conversion of a fee from Gwei, [int(x * Decimal(10**9))],
    returns the value times [10^9] cut to an integer towards zero, which is
    the exact product when the input has at most 9 fractional digits. *)
Theorem conversion_exact_within_precision (sign : bool) (c : N) (e : Z) :
  ndigits (Z.of_N c) <= 28 ->
  -18 <= e ->
  ndigits (Z.of_N c) + e + 17 <= 999999 ->
  scale_to_int (Finite sign c e) 18 = Ok (signed sign (Z.of_N c * 10 ^ (e + 18))) /\
  scale_to_int (Finite sign c e) 9 = Ok (signed sign (scaled (Z.of_N c) (e + 9))) /\
  (-9 <= e ->
   scale_to_int (Finite sign c e) 9 = Ok (signed sign (Z.of_N c * 10 ^ (e + 9)))).
Proof.
  intros Hprec He Hmax.
  assert (H18 : scale_to_int (Finite sign c e) 18
                = Ok (signed sign (scaled (Z.of_N c) (e + 18)))).
  { apply scale_to_int_finite; unfold decimal.prec, decimal.Emax; lia. }
  assert (H9 : scale_to_int (Finite sign c e) 9
               = Ok (signed sign (scaled (Z.of_N c) (e + 9)))).
  { apply scale_to_int_finite; unfold decimal.prec, decimal.Emax; lia. }
  split; [|split].
  - rewrite H18. unfold scaled.
    destruct (Z.leb_spec 0 (e + 18)); [reflexivity | lia].
  - exact H9.
  - intros He9. rewrite H9. unfold scaled.
    destruct (Z.leb_spec 0 (e + 9)); [reflexivity | lia].
Qed.

Lemma conversion_exact_within_precision_witness :
  scale_to_int (Finite false 15 (-1)) 18 = Ok 1500000000000000000 /\
  scale_to_int (Finite false 25 (-1)) 9 = Ok 2500000000.
Proof.
  split.
  - exact (proj1 (conversion_exact_within_precision false 15 (-1)
                    ltac:(vm_compute; discriminate) ltac:(lia)
                    ltac:(vm_compute; discriminate))).
  - exact (proj2 (proj2 (conversion_exact_within_precision false 25 (-1)
                    ltac:(vm_compute; discriminate) ltac:(lia)
                    ltac:(vm_compute; discriminate))) ltac:(lia)).
Defined.

(** ** Seed derivation *)

Lemma length_bytes_of_word x : length (hashlib.bytes_of_word x) = 8%nat.
Proof. reflexivity. Qed.

Lemma length_digest H : length (hashlib.digest H) = 64%nat.
Proof. destruct H. reflexivity. Qed.

Lemma length_sha512 msg : length (hashlib.sha512 msg) = 64%nat.
Proof. unfold hashlib.sha512. apply length_digest. Qed.

Lemma length_hmac_sha512 key msg : length (hashlib.hmac_sha512 key msg) = 64%nat.
Proof. unfold hashlib.hmac_sha512. apply length_sha512. Qed.

Lemma length_xor_bytes xs ys :
  length (hashlib.xor_bytes xs ys) = Nat.min (length xs) (length ys).
Proof. unfold hashlib.xor_bytes. apply length_zip_with. Qed.

Lemma length_pbkdf2_iter password n u t :
  length u = 64%nat -> length t = 64%nat ->
  length (Nat.iter n (hashlib.pbkdf2_step password) (u, t)).1 = 64%nat /\
  length (Nat.iter n (hashlib.pbkdf2_step password) (u, t)).2 = 64%nat.
Proof.
  intros Hu Ht. induction n as [|n [IHu IHt]]; simpl.
  - split; assumption.
  - split.
    + apply length_hmac_sha512.
    + rewrite length_xor_bytes, IHt, length_hmac_sha512. reflexivity.
Qed.

Lemma length_pbkdf2_hmac_sha512 password salt iterations :
  length (hashlib.pbkdf2_hmac_sha512 password salt iterations) = 64%nat.
Proof.
  unfold hashlib.pbkdf2_hmac_sha512.
  apply length_pbkdf2_iter; apply length_hmac_sha512.
Qed.

#[global] Opaque hashlib.pbkdf2_hmac_sha512.

(** [encode] succeeds exactly on the strings without surrogates. *)
Lemma encode_code_point_scalar c :
  is_scalar_value c = true -> exists b, encode_code_point c = Ok b.
Proof.
  intros H. unfold encode_code_point. rewrite H. simpl.
  repeat match goal with |- context [if ?b then _ else _] => destruct b end; eauto.
Qed.

Lemma encode_code_point_not_scalar c :
  is_scalar_value c = false -> exists msg, encode_code_point c = Err (UnicodeEncodeError msg).
Proof.
  intros H. unfold encode_code_point. rewrite H. simpl.
  assert (Hc : (0x800 <= c)%N).
  { unfold is_scalar_value, is_surrogate in H.
    apply andb_false_iff in H as [H|H].
    - apply N.ltb_ge in H. lia.
    - apply negb_false_iff, andb_true_iff in H as [H _]. apply N.leb_le in H. lia. }
  destruct (N.ltb_spec c 0x80); [lia|].
  destruct (N.ltb_spec c 0x800); [lia|]. eauto.
Qed.

Lemma encode_utf8_encodable s :
  encodable s = true -> exists bs, encode_utf8 s = Ok bs.
Proof.
  induction s as [|c s IH]; simpl; intros H; [eauto|].
  apply andb_true_iff in H as [Hc Hs].
  destruct (encode_code_point_scalar c Hc) as (b & ->).
  destruct (IH Hs) as (bs & ->). simpl. eauto.
Qed.

Lemma encode_utf8_not_encodable s :
  encodable s = false -> exists msg, encode_utf8 s = Err (UnicodeEncodeError msg).
Proof.
  induction s as [|c s IH]; simpl; intros H; [discriminate|].
  apply andb_false_iff in H as [Hc|Hs].
  - destruct (encode_code_point_not_scalar c Hc) as (msg & ->). simpl. eauto.
  - destruct (IH Hs) as (msg & Hs'). rewrite Hs'.
    destruct (encode_code_point c) as [b|e] eqn:Hc; simpl; [eauto|].
    destruct (is_scalar_value c) eqn:Hsc.
    + destruct (encode_code_point_scalar c Hsc) as (b & Hb). congruence.
    + destruct (encode_code_point_not_scalar c Hsc) as (msg' & Hb).
      rewrite Hb in Hc. injection Hc as <-. eauto.
Qed.

Lemma encodable_app s t : encodable (s ++ t) = encodable s && encodable t.
Proof. unfold encodable. apply forallb_app. Qed.

Lemma seed_password_encodable U m :
  encodable m = true -> exists bs, seed_password U m = Ok bs.
Proof.
  intros H. apply encode_utf8_encodable.
  unfold Mnemonic.normalize_string. rewrite NFKD_encodable. exact H.
Qed.

Lemma seed_salt_encodable U p :
  encodable p = true -> exists bs, seed_salt U p = Ok bs.
Proof.
  intros H. apply encode_utf8_encodable.
  rewrite encodable_app. unfold Mnemonic.normalize_string.
  rewrite NFKD_encodable, H. reflexivity.
Qed.

Lemma mnemonic_to_seed_unfold U m p :
  mnemonic_to_seed U m p =
  (mb ← seed_password U m; pb ← seed_salt U p;
   Ok (take 64 (hashlib.pbkdf2_hmac_sha512 mb pb Mnemonic.PBKDF2_ROUNDS))).
Proof. reflexivity. Qed.

Lemma mnemonic_to_seed_ok U m p mb pb :
  seed_password U m = Ok mb -> seed_salt U p = Ok pb ->
  mnemonic_to_seed U m p = Ok (hashlib.pbkdf2_hmac_sha512 mb pb 2048).
Proof.
  intros Hm Hp. rewrite mnemonic_to_seed_unfold, Hm, Hp. simpl.
  rewrite take_ge; [reflexivity|].
  rewrite length_pbkdf2_hmac_sha512. lia.
Qed.

(** The only exception [mnemonic_to_seed] can raise. *)
Lemma mnemonic_to_seed_err U m p e :
  mnemonic_to_seed U m p = Err e ->
  (exists msg, e = UnicodeEncodeError msg) /\ encodable m && encodable p = false.
Proof.
  rewrite mnemonic_to_seed_unfold. intros H.
  destruct (encodable m) eqn:Hm.
  - destruct (seed_password_encodable U m Hm) as (mb & Hmb).
    rewrite Hmb in H. simpl in H.
    destruct (encodable p) eqn:Hp.
    + destruct (seed_salt_encodable U p Hp) as (pb & Hpb).
      rewrite Hpb in H. discriminate.
    + assert (Hsalt : encodable (lit "mnemonic" ++ Mnemonic.normalize_string U p) = false).
      { rewrite encodable_app. unfold Mnemonic.normalize_string.
        rewrite NFKD_encodable, Hp. reflexivity. }
      apply encode_utf8_not_encodable in Hsalt as (msg & Hsalt).
      unfold seed_salt in H. rewrite Hsalt in H. injection H as <-. eauto.
  - assert (Hpw : encodable (Mnemonic.normalize_string U m) = false).
    { unfold Mnemonic.normalize_string. rewrite NFKD_encodable. exact Hm. }
    apply encode_utf8_not_encodable in Hpw as (msg & Hpw).
    unfold seed_password in H. rewrite Hpw in H. injection H as <-. eauto.
Qed.

(** *** Words outside the word list, bad checksums (C4) *)

Lemma split_on_no_sep sep s :
  forallb (fun c => negb (c =? sep)%N) s = true -> split_on sep s = [s].
Proof.
  induction s as [|c s IH]; simpl; intros H; [reflexivity|].
  apply andb_true_iff in H as [Hc Hs].
  apply negb_true_iff in Hc. rewrite Hc, (IH Hs). reflexivity.
Qed.

Lemma elem_of_longest (l : list str) w : w ∈ l -> (length w <= longest l)%nat.
Proof.
  unfold longest. induction l as [|x l IH]; intros H.
  - inversion H.
  - rewrite fmap_cons. cbn [foldr].
    apply elem_of_cons in H as [->|H]; [lia|].
    specialize (IH H). lia.
Qed.

Lemma fresh_word_fresh l : fresh_word l ∉ l.
Proof.
  intros H. apply elem_of_longest in H.
  unfold fresh_word in H. rewrite length_replicate in H. lia.
Qed.

Lemma forallb_replicate {A} (P : A -> bool) n x : P x = true -> forallb P (replicate n x) = true.
Proof. intros H. induction n; simpl; [reflexivity|]. rewrite H, IHn. reflexivity. Qed.

Lemma fresh_word_unlisted U l : has_unlisted_word U l (fresh_word l).
Proof.
  exists (fresh_word l). split; [|apply fresh_word_fresh].
  unfold mnemonic_words, Mnemonic.normalize_string.
  rewrite NFKD_ascii by (apply forallb_replicate; reflexivity).
  rewrite split_on_no_sep by (apply forallb_replicate; reflexivity).
  apply list_elem_of_singleton. reflexivity.
Qed.

Lemma fresh_word_seed U l : exists seed, mnemonic_to_seed U (fresh_word l) [] = Ok seed.
Proof.
  destruct (seed_password_encodable U (fresh_word l)) as (mb & Hmb).
  { apply forallb_replicate. reflexivity. }
  destruct (seed_salt_encodable U []) as (pb & Hpb); [reflexivity|].
  rewrite (mnemonic_to_seed_ok U _ _ mb pb Hmb Hpb). eauto.
Qed.

(** C4, as stated, is refuted: whatever the runtime's Unicode database, the
    word list and the checksum rule are, [mnemonic_to_seed] does not fail on
    every mnemonic that has a word outside the list or a failing checksum:
    it returns a seed for a one-word mnemonic that is in no list. *)
Lemma to_seed_accepts_unlisted_word_counterexample :
  ~ exists (U : unicodedata) (wordlist : list str) (checksum_ok : str -> bool),
      forall mnemonic passphrase,
        has_unlisted_word U wordlist mnemonic \/ checksum_ok mnemonic = false ->
        exists e, mnemonic_to_seed U mnemonic passphrase = Err e.
Proof.
  intros (U & wordlist & checksum_ok & H).
  destruct (H (fresh_word wordlist) []) as (e & He).
  { left. apply fresh_word_unlisted. }
  destruct (fresh_word_seed U wordlist) as (seed & Hseed).
  congruence.
Qed.

(** Success is a matter of encodability alone. *)
Lemma mnemonic_to_seed_is_ok U m p :
  is_ok (mnemonic_to_seed U m p) = encodable m && encodable p.
Proof.
  destruct (mnemonic_to_seed U m p) as [seed|e] eqn:H; simpl.
  - destruct (encodable m) eqn:Hm, (encodable p) eqn:Hp; try reflexivity; exfalso.
    + assert (Hs : encodable (lit "mnemonic" ++ Mnemonic.normalize_string U p) = false).
      { rewrite encodable_app. unfold Mnemonic.normalize_string.
        rewrite NFKD_encodable, Hp. reflexivity. }
      apply encode_utf8_not_encodable in Hs as (msg & Hs).
      rewrite mnemonic_to_seed_unfold in H.
      destruct (seed_password U m); simpl in H; [|discriminate].
      unfold seed_salt in H. rewrite Hs in H. discriminate.
    + assert (Hs : encodable (Mnemonic.normalize_string U m) = false).
      { unfold Mnemonic.normalize_string. rewrite NFKD_encodable. exact Hm. }
      apply encode_utf8_not_encodable in Hs as (msg & Hs).
      rewrite mnemonic_to_seed_unfold in H.
      unfold seed_password in H. rewrite Hs in H. discriminate.
    + assert (Hs : encodable (Mnemonic.normalize_string U m) = false).
      { unfold Mnemonic.normalize_string. rewrite NFKD_encodable. exact Hm. }
      apply encode_utf8_not_encodable in Hs as (msg & Hs).
      rewrite mnemonic_to_seed_unfold in H.
      unfold seed_password in H. rewrite Hs in H. discriminate.
  - apply mnemonic_to_seed_err in H as [_ H]. symmetry. exact H.
Qed.

(** C4 (amended): [mnemonic_to_seed] validates nothing.  It returns a seed
    exactly when the mnemonic and the passphrase can be encoded as UTF-8,
    whether or not the words are in the word list and the checksum holds;
    the only exception it raises is the [UnicodeEncodeError] of a string
    with a lone surrogate. *)
Theorem mnemonic_to_seed_fails_only_on_unencodable
    (U : unicodedata) (mnemonic passphrase : str) :
  is_ok (mnemonic_to_seed U mnemonic passphrase)
    = encodable mnemonic && encodable passphrase /\
  (forall e, mnemonic_to_seed U mnemonic passphrase = Err e ->
             exists msg, e = UnicodeEncodeError msg).
Proof.
  split; [apply mnemonic_to_seed_is_ok|].
  intros e H. apply mnemonic_to_seed_err in H as [H _]. exact H.
Qed.

(** *** Totality (C10) *)

(** C10, as stated, is refuted: a Python [str] may hold a lone surrogate,
    and on such a mnemonic (or passphrase) [mnemonic_to_seed] raises
    [UnicodeEncodeError], whatever the Unicode database of the runtime. *)
Lemma mnemonic_to_seed_not_total_counterexample :
  (exists msg, mnemonic_to_seed no_decompositions lone_surrogate []
               = Err (UnicodeEncodeError msg)) /\
  ~ exists U : unicodedata,
      forall mnemonic passphrase : str,
        exists seed, mnemonic_to_seed U mnemonic passphrase = Ok seed /\
                     length seed = 64%nat.
Proof.
  split.
  - eexists. reflexivity.
  - intros (U & H). destruct (H lone_surrogate []) as (seed & Hseed & _).
    pose proof (mnemonic_to_seed_is_ok U lone_surrogate []) as Hok.
    rewrite Hseed in Hok. discriminate.
Qed.

(** C10 (amended): over the strings that UTF-8 can encode, that is without
    lone surrogates, [mnemonic_to_seed] is total: it returns a 64-byte seed,
    the PBKDF2-HMAC-SHA512 (2048 rounds) of the encoded normalised mnemonic
    salted with ["mnemonic"] and the passphrase, with no look at the word
    list or the checksum. *)
Theorem mnemonic_to_seed_total_on_encodable
    (U : unicodedata) (mnemonic passphrase : str) :
  encodable mnemonic = true -> encodable passphrase = true ->
  exists seed mb pb,
    mnemonic_to_seed U mnemonic passphrase = Ok seed /\
    length seed = 64%nat /\
    encode_utf8 (normalize_NFKD U mnemonic) = Ok mb /\
    encode_utf8 (lit "mnemonic" ++ normalize_NFKD U passphrase) = Ok pb /\
    seed = hashlib.pbkdf2_hmac_sha512 mb pb 2048.
Proof.
  intros Hm Hp.
  destruct (seed_password_encodable U mnemonic Hm) as (mb & Hmb).
  destruct (seed_salt_encodable U passphrase Hp) as (pb & Hpb).
  exists (hashlib.pbkdf2_hmac_sha512 mb pb 2048), mb, pb.
  split; [apply mnemonic_to_seed_ok; assumption|].
  split; [apply length_pbkdf2_hmac_sha512|].
  repeat split; assumption.
Qed.

Lemma mnemonic_to_seed_total_on_encodable_witness :
  exists seed,
    mnemonic_to_seed no_decompositions not_a_mnemonic (lit "pass") = Ok seed /\
    length seed = 64%nat.
Proof.
  destruct (mnemonic_to_seed_total_on_encodable no_decompositions not_a_mnemonic
              (lit "pass") eq_refl eq_refl) as (seed & _ & _ & H & Hlen & _).
  exists seed. split; assumption.
Defined.

(** ** Message signing and verification *)

(** A [SignedMessage] has no attribute [address]. *)
Lemma SignedMessage_has_no_address (m : SignedMessage) :
  SignedMessage_getattr m "address"
  = Err (AttributeError "'SignedMessage' object has no attribute 'address'").
Proof. reflexivity. Qed.

(** What [sign_message] does: the key is parsed, the text encoded, the
    message signed, and the lookup of [signed.address] raises. *)
Lemma sign_message_unfold (C : crypto) (private_key_hex message : str) :
  sign_message C private_key_hex message =
  (acct ← Account.from_key C private_key_hex;
   msg ← encode_defunct message;
   Err (AttributeError "'SignedMessage' object has no attribute 'address'")).
Proof.
  unfold sign_message.
  destruct (Account.from_key C private_key_hex) as [acct|e]; simpl; [|reflexivity].
  destruct (encode_defunct message) as [msg|e]; simpl; reflexivity.
Qed.

(** C3 (the code departs from the claim): [sign_message] returns no record
    at all, for any key and any text: when the key parses and the text
    encodes, reading [signed.address] raises [AttributeError]. *)
Theorem sign_message_never_returns
    (C : crypto) (private_key_hex message : str) (record : gmap string pyobj) :
  sign_message C private_key_hex message ≠ Ok record.
Proof.
  rewrite sign_message_unfold.
  destruct (Account.from_key C private_key_hex) as [acct|e]; simpl; [|discriminate].
  destruct (encode_defunct message) as [msg|e]; simpl; discriminate.
Qed.

(** C1 (the code departs from the claim): the round trip through
    [sign_message] never yields an address, because [sign_message] raises
    before it returns the signature. *)
Theorem sign_then_verify_never_returns
    (C : crypto) (private_key_hex message : str) (w3 : Web3) (signer : str) :
  sign_then_verify C private_key_hex message w3 ≠ Ok signer.
Proof.
  unfold sign_then_verify. rewrite sign_message_unfold.
  destruct (Account.from_key C private_key_hex) as [acct|e]; simpl; [|discriminate].
  destruct (encode_defunct message) as [msg|e]; simpl; discriminate.
Qed.

(** *** Hexadecimal strings *)

Lemma hex_value_hex_digit n : (n < 16)%N -> hex_value (hex_digit n) = Some n.
Proof.
  intros H. unfold hex_digit, hex_value.
  destruct (N.ltb_spec n 10).
  - replace ((48 <=? 48 + n) && (48 + n <=? 57))%N with true.
    + f_equal. lia.
    + symmetry. apply andb_true_iff. split; apply N.leb_le; lia.
  - replace ((48 <=? 87 + n) && (87 + n <=? 57))%N with false.
    + replace ((97 <=? 87 + n) && (87 + n <=? 102))%N with true.
      * f_equal. lia.
      * symmetry. apply andb_true_iff. split; apply N.leb_le; lia.
    + symmetry. apply andb_false_iff. right. apply N.leb_gt. lia.
Qed.

Lemma byte_of_N_to_N b : byte_of_N (Byte.to_N b) = b.
Proof.
  unfold byte_of_N.
  rewrite N.mod_small by (pose proof (Byte.to_N_bounded b); lia).
  rewrite Byte.of_to_N. reflexivity.
Qed.

Lemma to_N_byte_of_N c : (c < 256)%N -> Byte.to_N (byte_of_N c) = c.
Proof.
  intros Hc. unfold byte_of_N. rewrite N.mod_small by exact Hc.
  destruct (Byte.of_N c) as [b|] eqn:Hb.
  - apply Byte.to_of_N. exact Hb.
  - apply Byte.of_N_None_iff in Hb. lia.
Qed.

Lemma hex_digit_lt n : (n < 16)%N -> (hex_digit n < 128)%N.
Proof. intros H. unfold hex_digit. destruct (n <? 10)%N; lia. Qed.

Lemma is_ascii_bytes_hex bs : is_ascii (bytes_hex bs) = true.
Proof.
  induction bs as [|b bs IH]; [reflexivity|].
  pose proof (Byte.to_N_bounded b) as Hb.
  cbn [bytes_hex flat_map app is_ascii forallb]. fold (bytes_hex bs). fold (is_ascii (bytes_hex bs)).
  rewrite IH, !andb_true_r.
  apply andb_true_iff. split; apply N.ltb_lt, hex_digit_lt.
  - apply N.Div0.div_lt_upper_bound. lia.
  - apply N.mod_lt. lia.
Qed.

Lemma hex_value_of_digit_byte n :
  (n < 16)%N -> hex_value (Byte.to_N (byte_of_N (hex_digit n))) = Some n.
Proof.
  intros H. rewrite to_N_byte_of_N by (pose proof (hex_digit_lt n H); lia).
  apply hex_value_hex_digit, H.
Qed.

Lemma unhexlify_bytes_hex bs : unhexlify (byte_of_N <$> bytes_hex bs) = Ok bs.
Proof.
  induction bs as [|b bs IH]; [reflexivity|].
  cbn [bytes_hex flat_map app fmap list_fmap unhexlify].
  fold (bytes_hex bs). change (list_fmap N byte byte_of_N (bytes_hex bs))
    with (byte_of_N <$> bytes_hex bs).
  pose proof (Byte.to_N_bounded b) as Hb.
  rewrite !hex_value_of_digit_byte.
  - rewrite IH. simpl. f_equal. f_equal.
    rewrite <- (byte_of_N_to_N b) at 3. f_equal.
    pose proof (N.div_mod (Byte.to_N b) 16 ltac:(lia)). lia.
  - apply N.mod_lt. lia.
  - apply N.Div0.div_lt_upper_bound. lia.
Qed.

Lemma length_bytes_hex bs : length (bytes_hex bs) = (2 * length bs)%nat.
Proof. induction bs as [|b bs IH]; simpl; [reflexivity|]. rewrite IH. lia. Qed.

(** Parsing what [hex()] printed gives the bytes back. *)
Lemma HexBytes_round_trip bs : HexBytes_of_str (HexBytes_hex bs) = Ok bs.
Proof.
  unfold HexBytes_of_str, HexBytes_hex.
  change (lit "0x" ++ bytes_hex bs) with (48%N :: 120%N :: bytes_hex bs).
  cbn [length]. rewrite length_bytes_hex.
  replace (Nat.odd (S (S (2 * length bs)))) with false.
  - unfold encode_ascii. rewrite is_ascii_bytes_hex. cbn [mbind result_bind].
    apply unhexlify_bytes_hex.
  - symmetry. rewrite Nat.odd_succ_succ. 
    apply Bool.negb_true_iff. rewrite Nat.negb_odd.
    apply Nat.even_spec. exists (length bs). lia.
Qed.

(** [verify_message] on the printed signature hands the recovery the
    signature's bytes and the message [sign_message] would sign. *)
Lemma verify_message_of_hex (C : crypto) (sig : list byte) (message : str) (w3 : Web3) :
  verify_message C (HexBytes_hex sig) message w3
  = (msg ← encode_defunct message; recover_signer C msg sig).
Proof.
  unfold verify_message, Account.recover_message.
  rewrite HexBytes_round_trip. reflexivity.
Qed.

(** ** Account derivation *)


(** ** More on the transaction builder *)

Lemma base_tx_lookup fa ta v n c :
  base_tx fa ta v n c !! "from" = Some (VStr fa) /\
  base_tx fa ta v n c !! "to" = Some (VStr ta) /\
  base_tx fa ta v n c !! "value" = Some (VInt v) /\
  base_tx fa ta v n c !! "nonce" = Some (VInt n).
Proof. repeat split; reflexivity. Qed.

Lemma legacy_tx_base fa ta v n c p g :
  legacy_tx fa ta v n c p g !! "from" = Some (VStr fa) /\
  legacy_tx fa ta v n c p g !! "to" = Some (VStr ta) /\
  legacy_tx fa ta v n c p g !! "value" = Some (VInt v) /\
  legacy_tx fa ta v n c p g !! "nonce" = Some (VInt n) /\
  legacy_tx fa ta v n c p g !! "gas" = Some (VInt g).
Proof. repeat split; reflexivity. Qed.

Lemma fee_market_tx_base fa ta v n c mf mp g :
  fee_market_tx fa ta v n c mf mp g !! "from" = Some (VStr fa) /\
  fee_market_tx fa ta v n c mf mp g !! "to" = Some (VStr ta) /\
  fee_market_tx fa ta v n c mf mp g !! "value" = Some (VInt v) /\
  fee_market_tx fa ta v n c mf mp g !! "nonce" = Some (VInt n) /\
  fee_market_tx fa ta v n c mf mp g !! "gas" = Some (VInt g).
Proof. repeat split; reflexivity. Qed.

(** The five fields both variants share, read back from a returned
    dictionary. *)
Lemma build_base_fields
    (w3 : Web3) (from_address to_address : str) (value_eth : Decimal)
    (gas : option Z) (gas_price_gwei mpf mf : option Decimal)
    (nonce chain_id : option Z) (tx : gmap string pyobj) :
  build_eth_transaction w3 from_address to_address value_eth gas
    gas_price_gwei mpf mf nonce chain_id = Ok tx ->
  exists fa ta v n c g,
    prefix_ok w3 from_address to_address value_eth nonce chain_id fa ta v n c /\
    resolve_gas w3 gas (tx_skeleton fa ta v) = Ok g /\
    tx !! "from" = Some (VStr fa) /\ tx !! "to" = Some (VStr ta) /\
    tx !! "value" = Some (VInt v) /\ tx !! "nonce" = Some (VInt n) /\
    tx !! "gas" = Some (VInt g).
Proof.
  intros H.
  apply build_eth_transaction_inv in H
    as (fa & ta & v & n & c & g & Hpre & Hg & [Hfee | Hleg]);
    exists fa, ta, v, n, c, g; (split; [exact Hpre|]); (split; [exact Hg|]).
  - destruct Hfee as (max_fee & max_priority & mfw & mpw & _ & _ & _ & _ & ->).
    apply fee_market_tx_base.
  - destruct Hleg as (_ & p & _ & ->). apply legacy_tx_base.
Qed.

(** X1. A supplied nonce, zero included, is stored as given, and the node
    is not asked for the transaction count: the result is the same with a
    node that answers the count differently or not at all. *)
Theorem supplied_nonce_is_used
    (w3 : Web3) (from_address to_address : str) (value_eth : Decimal)
    (gas : option Z) (gas_price_gwei mpf mf : option Decimal)
    (n : Z) (chain_id : option Z) (tx : gmap string pyobj) :
  build_eth_transaction w3 from_address to_address value_eth gas
    gas_price_gwei mpf mf (Some n) chain_id = Ok tx ->
  tx !! "nonce" = Some (VInt n) /\
  forall f,
    build_eth_transaction (with_transaction_count f w3) from_address to_address
      value_eth gas gas_price_gwei mpf mf (Some n) chain_id = Ok tx.
Proof.
  intros H. split.
  - apply build_base_fields in H
      as (fa & ta & v & n' & c & g & (_ & _ & Hn & _) & _ & _ & _ & _ & Hnonce & _).
    simpl in Hn. injection Hn as ->. exact Hnonce.
  - intros f. exact H.
Qed.

Lemma supplied_nonce_is_used_witness :
  (legacy_tx alice bob 1500000000000000000 0 1 30000000000 21000) !! "nonce"
    = Some (VInt 0) /\
  build_eth_transaction (with_transaction_count (fun _ => unavailable) fake_w3)
    alice bob one_and_a_half None None None None (Some 0) None
  = Ok (legacy_tx alice bob 1500000000000000000 0 1 30000000000 21000).
Proof.
  assert (H : build_eth_transaction fake_w3 alice bob one_and_a_half None None None None
                (Some 0) None
              = Ok (legacy_tx alice bob 1500000000000000000 0 1 30000000000 21000)).
  { apply build_legacy_ok.
    - intros [[? ?] _]; discriminate.
    - apply fake_prefix_ok; reflexivity.
    - reflexivity.
    - reflexivity. }
  destruct (supplied_nonce_is_used fake_w3 alice bob one_and_a_half None None None None
              0 None _ H) as (H1 & H2).
  split; [exact H1 | exact (H2 (fun _ => unavailable))].
Defined.

(** X2. A supplied gas limit is stored as given and the node is not asked
    for an estimate. *)
Theorem supplied_gas_is_used
    (w3 : Web3) (from_address to_address : str) (value_eth : Decimal)
    (g : Z) (gas_price_gwei mpf mf : option Decimal)
    (nonce chain_id : option Z) (tx : gmap string pyobj) :
  build_eth_transaction w3 from_address to_address value_eth (Some g)
    gas_price_gwei mpf mf nonce chain_id = Ok tx ->
  tx !! "gas" = Some (VInt g) /\
  forall f,
    build_eth_transaction (with_estimate_gas f w3) from_address to_address
      value_eth (Some g) gas_price_gwei mpf mf nonce chain_id = Ok tx.
Proof.
  intros H. split.
  - apply build_base_fields in H
      as (fa & ta & v & n & c & g' & _ & Hg & _ & _ & _ & _ & Hgas).
    simpl in Hg. injection Hg as ->. exact Hgas.
  - intros f. exact H.
Qed.

Lemma supplied_gas_is_used_witness :
  build_eth_transaction (with_estimate_gas (fun _ => unavailable) fake_w3)
    alice bob one_and_a_half (Some 50000) None None None None None
  = Ok (legacy_tx alice bob 1500000000000000000 7 1 30000000000 50000).
Proof.
  assert (H : build_eth_transaction fake_w3 alice bob one_and_a_half (Some 50000) None None
                None None None
              = Ok (legacy_tx alice bob 1500000000000000000 7 1 30000000000 50000)).
  { apply build_legacy_ok.
    - intros [[? ?] _]; discriminate.
    - apply fake_prefix_ok; reflexivity.
    - reflexivity.
    - reflexivity. }
  exact (proj2 (supplied_gas_is_used fake_w3 alice bob one_and_a_half 50000 None None None
                  None None _ H) (fun _ => unavailable)).
Defined.

(** X3. When the gas limit is omitted, the estimate is asked for the
    skeleton [{from, to, value}] alone, with the checksummed addresses and
    the amount in wei, in the legacy and in the fee-market branch alike,
    and what the node answers is stored under [gas]. *)
Theorem omitted_gas_is_estimated_on_skeleton
    (w3 : Web3) (from_address to_address : str) (value_eth : Decimal)
    (gas_price_gwei mpf mf : option Decimal)
    (nonce chain_id : option Z) (tx : gmap string pyobj) :
  build_eth_transaction w3 from_address to_address value_eth None
    gas_price_gwei mpf mf nonce chain_id = Ok tx ->
  exists fa ta v g,
    toChecksumAddress w3 from_address = Ok fa /\
    toChecksumAddress w3 to_address = Ok ta /\
    scale_to_int value_eth 18 = Ok v /\
    eth_estimate_gas w3 (tx_skeleton fa ta v) = Ok g /\
    dom (tx_skeleton fa ta v) = {[ "from"; "to"; "value" ]} /\
    tx !! "gas" = Some (VInt g).
Proof.
  intros H.
  apply build_base_fields in H
    as (fa & ta & v & n & c & g & (Hfa & Hta & _ & Hv & _) & Hg & _ & _ & _ & _ & Hgas).
  exists fa, ta, v, g.
  split; [exact Hfa|]. split; [exact Hta|]. split; [exact Hv|].
  split; [exact Hg|]. split; [|exact Hgas].
  unfold tx_skeleton. rewrite !dom_insert_L, dom_empty_L. set_solver.
Qed.

Lemma omitted_gas_is_estimated_on_skeleton_witness :
  exists fa ta v g,
    eth_estimate_gas fake_w3 (tx_skeleton fa ta v) = Ok g /\
    (legacy_tx alice bob 1500000000000000000 7 1 30000000000 21000) !! "gas"
      = Some (VInt g).
Proof.
  destruct (omitted_gas_is_estimated_on_skeleton fake_w3 alice bob one_and_a_half
              None None None None None _ (fake_build_without_fees None 1 eq_refl))
    as (fa & ta & v & g & _ & _ & _ & Hg & _ & Hgas).
  exists fa, ta, v, g. split; [exact Hg | exact Hgas].
Defined.

(** X4. With a complete fee-market pair the legacy gas price plays no
    part: [gas_price_gwei] is dropped unconverted, the node is not asked
    for its gas price, and the dictionary has no [gasPrice]. *)
Theorem fee_market_ignores_gas_price
    (w3 : Web3) (from_address to_address : str) (value_eth : Decimal)
    (gas : option Z) (gas_price_gwei : option Decimal) (max_priority max_fee : Decimal)
    (nonce chain_id : option Z) (tx : gmap string pyobj) :
  build_eth_transaction w3 from_address to_address value_eth gas
    gas_price_gwei (Some max_priority) (Some max_fee) nonce chain_id = Ok tx ->
  tx !! "gasPrice" = None /\
  forall other_price node_price,
    build_eth_transaction (with_gas_price node_price w3) from_address to_address
      value_eth gas other_price (Some max_priority) (Some max_fee) nonce chain_id = Ok tx.
Proof.
  intros H. split.
  - apply build_eth_transaction_inv in H
      as (fa & ta & v & n & c & g & _ & _ & [Hfee | Hleg]).
    + destruct Hfee as (? & ? & mfw & mpw & _ & _ & _ & _ & ->).
      apply fee_market_tx_lookup.
    + destruct Hleg as (Hnot & _). exfalso. apply Hnot. split; eauto.
  - intros other_price node_price. exact H.
Qed.

Lemma fee_market_ignores_gas_price_witness :
  build_eth_transaction (with_gas_price unavailable fake_w3) alice bob one_and_a_half
    None (Some (NaN false false)) (Some one_and_a_half) (Some two_and_a_half) None None
  = Ok (fee_market_tx alice bob 1500000000000000000 7 1 2500000000 1500000000 21000).
Proof.
  assert (H : build_eth_transaction fake_w3 alice bob one_and_a_half None None
                (Some one_and_a_half) (Some two_and_a_half) None None
              = Ok (fee_market_tx alice bob 1500000000000000000 7 1 2500000000
                      1500000000 21000)).
  { apply build_fee_market_ok; try reflexivity.
    apply fake_prefix_ok; reflexivity. }
  exact (proj2 (fee_market_ignores_gas_price fake_w3 alice bob one_and_a_half None None
                  one_and_a_half two_and_a_half None None _ H)
           (Some (NaN false false)) unavailable).
Defined.




(** X6. An address the validator refuses aborts the build with the
    validator's error, whatever the other arguments are and whatever the
    node would answer. *)
Theorem invalid_address_aborts_build
    (w3 : Web3) (from_address to_address : str) (value_eth : Decimal)
    (gas : option Z) (gas_price_gwei mpf mf : option Decimal)
    (nonce chain_id : option Z) (e : exn) :
  toChecksumAddress w3 from_address = Err e \/
  (is_ok (toChecksumAddress w3 from_address) = true /\
   toChecksumAddress w3 to_address = Err e) ->
  build_eth_transaction w3 from_address to_address value_eth gas
    gas_price_gwei mpf mf nonce chain_id = Err e.
Proof.
  intros [H | [Hfrom H]]; unfold build_eth_transaction.
  - rewrite H. reflexivity.
  - destruct (toChecksumAddress w3 from_address); [|discriminate].
    simpl. rewrite H. reflexivity.
Qed.

Lemma invalid_address_aborts_build_witness :
  build_eth_transaction strict_w3 alice bob one_and_a_half None None None None None None
  = Err (ValueError "invalid address").
Proof.
  apply invalid_address_aborts_build. left. reflexivity.
Defined.

(** X8. The builder checks no sign: a negative amount is converted like
    any other and stored as a negative [value]. *)
Theorem negative_amount_is_not_rejected
    (w3 : Web3) (from_address to_address : str) (c : N) (e : Z)
    (gas : option Z) (gas_price_gwei mpf mf : option Decimal)
    (nonce chain_id : option Z) (tx : gmap string pyobj) :
  (0 < c)%N ->
  ndigits (Z.of_N c) <= 28 -> -18 <= e -> ndigits (Z.of_N c) + e + 17 <= 999999 ->
  build_eth_transaction w3 from_address to_address (Finite true c e) gas
    gas_price_gwei mpf mf nonce chain_id = Ok tx ->
  tx !! "value" = Some (VInt (- (Z.of_N c * 10 ^ (e + 18)))) /\
  - (Z.of_N c * 10 ^ (e + 18)) < 0.
Proof.
  intros Hc Hd He Hmax H.
  apply build_base_fields in H
    as (fa & ta & v & n & ch & g & (_ & _ & _ & Hv & _) & _ & _ & _ & Hvalue & _).
  rewrite scale_to_int_finite in Hv
    by (unfold decimal.prec, decimal.Emax; lia).
  injection Hv as <-. unfold signed, scaled in Hvalue.
  destruct (Z.leb_spec 0 (e + 18)); [|lia].
  split; [exact Hvalue|].
  pose proof (pow10_pos (e + 18) ltac:(lia)). nia.
Qed.

Lemma negative_amount_is_not_rejected_witness :
  (legacy_tx alice bob (-1500000000000000000) 7 1 30000000000 21000) !! "value"
    = Some (VInt (- (15 * 10 ^ (-1 + 18)))) /\
  - (15 * 10 ^ (-1 + 18)) < 0.
Proof.
  assert (H : build_eth_transaction fake_w3 alice bob (Finite true 15 (-1)) None None None
                None None None
              = Ok (legacy_tx alice bob (-1500000000000000000) 7 1 30000000000 21000)).
  { apply build_legacy_ok.
    - intros [[? ?] _]; discriminate.
    - repeat split; reflexivity.
    - reflexivity.
    - reflexivity. }
  exact (negative_amount_is_not_rejected fake_w3 alice bob 15 (-1) None None None None
           None None _ eq_refl ltac:(vm_compute; discriminate) ltac:(lia)
           ltac:(vm_compute; discriminate) H).
Defined.

(** ** Balances: wei to ETH and back *)

Lemma ndigits_le_of_lt n k : 0 < n -> 0 <= k -> n < 10 ^ k -> ndigits n <= k.
Proof.
  intros Hn Hk Hlt.
  destruct (ndigits_spec n Hn) as ([Hlo _] & Hd).
  destruct (Z.le_gt_cases (ndigits n) k) as [|Hgt]; [assumption|].
  pose proof (pow10_le k (ndigits n - 1) ltac:(lia)). lia.
Qed.

Lemma pow10_succ k : 0 <= k -> 10 ^ (k + 1) = 10 * 10 ^ k.
Proof. intros. rewrite pow10_split by lia. change (10 ^ 1) with 10. lia. Qed.

(** The loop keeps the value, stops at the ideal exponent at the latest,
    and consumes every zero it is given room for. *)
Lemma strip_zeros_spec steps : forall coeff exp j q,
  0 < q -> 0 <= j -> coeff = q * 10 ^ j -> (Z.to_nat j <= steps)%nat ->
  let '(c', e') := strip_zeros steps coeff exp in
  0 < c' /\ exp + j <= e' <= exp + Z.of_nat steps /\
  c' * 10 ^ (e' - exp) = coeff.
Proof.
  induction steps as [|steps IH]; intros coeff exp j q Hq Hj Hc Hsteps.
  - simpl. assert (j = 0) by lia. subst j. rewrite Z.pow_0_r in Hc.
    replace (exp - exp) with 0 by lia. rewrite Z.pow_0_r. lia.
  - cbn [strip_zeros].
    destruct (Z.eqb_spec (coeff mod 10) 0) as [Hmod|Hmod].
    + (* one zero goes *)
      assert (Hdiv : coeff = 10 * (coeff / 10)).
      { pose proof (Z.div_mod coeff 10 ltac:(lia)). lia. }
      assert (Hpos : 0 < coeff).
      { subst coeff. pose proof (pow10_pos j Hj). nia. }
      destruct (Z.eq_dec j 0) as [->|Hj0].
      * specialize (IH (coeff / 10) (exp + 1) 0 (coeff / 10)
                      ltac:(lia) ltac:(lia) ltac:(rewrite Z.pow_0_r; lia) ltac:(lia)).
        destruct (strip_zeros steps (coeff / 10) (exp + 1)) as [c' e'].
        destruct IH as (Hc' & He' & Hval).
        split; [assumption|]. split; [lia|].
        replace (e' - exp) with ((e' - (exp + 1)) + 1) by lia.
        rewrite pow10_succ by lia. lia.
      * assert (Hq' : coeff / 10 = q * 10 ^ (j - 1)).
        { subst coeff. replace j with ((j - 1) + 1) at 1 by lia.
          rewrite pow10_succ by lia.
          replace (q * (10 * 10 ^ (j - 1))) with ((q * 10 ^ (j - 1)) * 10) by ring.
          apply Z.div_mul. lia. }
        specialize (IH (coeff / 10) (exp + 1) (j - 1) q Hq ltac:(lia) Hq' ltac:(lia)).
        destruct (strip_zeros steps (coeff / 10) (exp + 1)) as [c' e'].
        destruct IH as (Hc' & He' & Hval).
        split; [assumption|]. split; [lia|].
        replace (e' - exp) with ((e' - (exp + 1)) + 1) by lia.
        rewrite pow10_succ by lia. lia.
    + (* no zero to strip: then [j = 0] *)
      assert (j = 0).
      { destruct (Z.eq_dec j 0) as [|Hj0]; [assumption|]. exfalso. apply Hmod.
        subst coeff. replace j with ((j - 1) + 1) by lia.
        rewrite pow10_succ by lia.
        replace (q * (10 * 10 ^ (j - 1))) with ((q * 10 ^ (j - 1)) * 10) by ring.
        apply Z.mod_mul. lia. }
      subst j. rewrite Z.pow_0_r in Hc.
      replace (exp - exp) with 0 by lia. rewrite Z.pow_0_r. lia.
Qed.

Lemma of_int_abs wei : decimal.of_int wei = Finite (wei <? 0) (Z.to_N (Z.abs wei)) 0.
Proof. unfold decimal.of_int. f_equal. lia. Qed.

Lemma signed_abs wei : signed (wei <? 0) (Z.abs wei) = wei.
Proof. unfold signed. destruct (Z.ltb_spec wei 0); lia. Qed.

Lemma ndigits_pow10 k : 0 <= k -> ndigits (10 ^ k) = k + 1.
Proof.
  intros Hk. replace (10 ^ k) with (1 * 10 ^ k) by lia.
  rewrite ndigits_shift by lia. change (ndigits 1) with 1. lia.
Qed.

(** Division by a power of ten is exact on a dividend of at most 28
    digits: its trailing zeros, as many as the power has, move into the
    exponent. *)
Lemma truediv_pow10_exact sign a k :
  0 < a -> a < 10 ^ 28 -> 0 <= k <= 255 ->
  exists c e,
    Decimal_truediv (Finite sign (Z.to_N a) 0) (Finite false (Z.to_N (10 ^ k)) 0)
      = Ok (Finite sign (Z.to_N c) e) /\
    0 < c /\ - k <= e <= 0 /\ c * 10 ^ (e + k) = a.
Proof.
  intros Ha Hlt Hk.
  destruct (ndigits_spec a Ha) as (_ & Hd1).
  pose proof (ndigits_le_of_lt a 28 Ha ltac:(lia) Hlt) as Hd28.
  pose proof (pow10_pos k ltac:(lia)) as Hpk.
  unfold Decimal_truediv. rewrite !Z2N.id by lia.
  rewrite xorb_false_r.
  destruct (Z.eqb_spec (10 ^ k) 0) as [?|_]; [lia|].
  destruct (Z.eqb_spec a 0) as [?|_]; [lia|].
  rewrite ndigits_pow10 by lia.
  unfold decimal.prec.
  set (d := ndigits a) in *.
  destruct (Z.leb_spec 0 (k + 1 - d + 28 + 1)) as [_|?]; [|lia].
  replace (k + 1 - d + 28 + 1) with ((30 - d) + k) by lia.
  rewrite pow10_split by lia. rewrite Z.mul_assoc.
  rewrite Z.div_mul, Z.mod_mul by lia.
  rewrite Z.eqb_refl.
  replace (0 - 0 - (30 - d + k)) with (d - 30 - k) by lia.
  replace (0 - 0 - (d - 30 - k)) with (30 + k - d) by lia.
  pose proof (strip_zeros_spec (Z.to_nat (30 + k - d)) (a * 10 ^ (30 - d)) (d - 30 - k)
                (30 - d) a Ha ltac:(lia) eq_refl ltac:(lia)) as Hstrip.
  destruct (strip_zeros (Z.to_nat (30 + k - d)) (a * 10 ^ (30 - d)) (d - 30 - k)) as [c' e'].
  destruct Hstrip as (Hc' & He' & Hval).
  assert (Hca : c' * 10 ^ (e' + k) = a).
  { replace (e' - (d - 30 - k)) with ((e' + k) + (30 - d)) in Hval by lia.
    rewrite pow10_split, Z.mul_assoc in Hval by lia.
    pose proof (pow10_pos (30 - d) ltac:(lia)).
    apply Z.mul_reg_r in Hval; lia. }
  assert (Hc28 : ndigits c' <= 28).
  { apply ndigits_le_of_lt; [assumption | lia |].
    pose proof (pow10_pos (e' + k) ltac:(lia)). nia. }
  destruct (ndigits_spec c' Hc') as (_ & Hdc).
  exists c', e'.
  split; [|repeat split; try assumption; lia].
  unfold decimal.fix_, decimal.Etop, decimal.Etiny, decimal.Emax, decimal.Emin, decimal.prec.
  destruct (Z.eqb_spec c' 0) as [?|_]; [lia|].
  destruct (Z.ltb_spec (999999 - 28 + 1) (ndigits c' + e' - 28)) as [?|_]; [lia|].
  destruct (Z.ltb_spec (ndigits c' + e' - 28) (-999999 - 28 + 1)) as [?|_]; [lia|].
  destruct (Z.ltb_spec e' (ndigits c' + e' - 28)) as [?|_]; [lia|].
  reflexivity.
Qed.

(** What [wei_to_eth] returns for an amount of at most 28 digits: the
    amount with up to 18 trailing zeros moved into the exponent. *)
Lemma wei_to_eth_finite wei :
  wei <> 0 -> Z.abs wei < 10 ^ 28 ->
  exists c e,
    wei_to_eth wei = Ok (Finite (wei <? 0) (Z.to_N c) e) /\
    0 < c /\ -18 <= e <= 0 /\ c * 10 ^ (e + 18) = Z.abs wei.
Proof.
  intros Hnz Hlt.
  unfold wei_to_eth. rewrite of_int_abs, of_int_pow10 by lia.
  apply (truediv_pow10_exact (wei <? 0) (Z.abs wei) 18); lia.
Qed.

Lemma wei_eth_round_trip_nonzero (wei : Z) :
  wei <> 0 -> Z.abs wei < 10 ^ 28 ->
  exists eth, wei_to_eth wei = Ok eth /\ scale_to_int eth 18 = Ok wei.
Proof.
  intros Hnz Hlt.
  destruct (wei_to_eth_finite wei Hnz Hlt) as (c & e & Heth & Hc & He & Hval).
  exists (Finite (wei <? 0) (Z.to_N c) e). split; [exact Heth|].
  assert (Hc28 : ndigits c <= 28).
  { apply ndigits_le_of_lt; [assumption | lia |].
    pose proof (pow10_pos (e + 18) ltac:(lia)). nia. }
  rewrite scale_to_int_finite;
    rewrite ?Z2N.id by lia; unfold decimal.prec, decimal.Emax; try lia.
  f_equal. unfold scaled.
  destruct (Z.leb_spec 0 (e + 18)); [|lia].
  rewrite Hval. apply signed_abs.
Qed.

(** The amount a returned transaction carries is the converted one. *)
Lemma build_value_field
    (w3 : Web3) (from_address to_address : str) (value_eth : Decimal)
    (gas : option Z) (gas_price_gwei mpf mf : option Decimal)
    (nonce chain_id : option Z) (tx : gmap string pyobj) :
  build_eth_transaction w3 from_address to_address value_eth gas
    gas_price_gwei mpf mf nonce chain_id = Ok tx ->
  exists v, scale_to_int value_eth 18 = Ok v /\ tx !! "value" = Some (VInt v).
Proof.
  intros H. apply build_base_fields in H
    as (fa & ta & v & n & c & g & Hpre & _ & _ & _ & Hv & _).
  exists v. split; [apply Hpre | exact Hv].
Qed.

(** X7. An amount of wei converted to ETH by [wei_to_eth] and handed to
    the builder comes back as the same number of wei: the builder's
    conversion undoes [wei_to_eth], and that number is what a returned
    transaction carries under ["value"]; for every amount of at most 28
    digits, negative amounts included. *)
Theorem wei_eth_round_trip (wei : Z) :
  Z.abs wei < 10 ^ 28 ->
  exists eth,
    wei_to_eth wei = Ok eth /\
    scale_to_int eth 18 = Ok wei /\
    forall (w3 : Web3) (from_address to_address : str) (gas : option Z)
           (gas_price_gwei mpf mf : option Decimal) (nonce chain_id : option Z)
           (tx : gmap string pyobj),
      build_eth_transaction w3 from_address to_address eth gas
        gas_price_gwei mpf mf nonce chain_id = Ok tx ->
      tx !! "value" = Some (VInt wei).
Proof.
  intros Hlt.
  assert (H : exists eth, wei_to_eth wei = Ok eth /\ scale_to_int eth 18 = Ok wei).
  { destruct (Z.eq_dec wei 0) as [->|Hnz].
    - exists (Finite false 0 0). split; vm_compute; reflexivity.
    - apply wei_eth_round_trip_nonzero; assumption. }
  destruct H as (eth & Heth & Hback).
  exists eth. split; [exact Heth|]. split; [exact Hback|].
  intros w3 from_address to_address gas gas_price_gwei mpf mf nonce chain_id tx Hbuild.
  apply build_value_field in Hbuild as (v & Hv & Htx).
  rewrite Hback in Hv. injection Hv as <-. exact Htx.
Qed.

Lemma wei_eth_round_trip_witness :
  exists eth, wei_to_eth 1500000000000000001 = Ok eth /\
              scale_to_int eth 18 = Ok 1500000000000000001.
Proof.
  destruct (wei_eth_round_trip 1500000000000000001 ltac:(vm_compute; reflexivity))
    as (eth & H1 & H2 & _).
  exists eth. split; [exact H1 | exact H2].
Defined.

(** Beyond 28 digits the quotient is rounded and the round trip breaks. *)
Example wei_eth_round_trip_29_digits :
  wei_to_eth 12345678901234567890123456789
    = Ok (Finite false 1234567890123456789012345679 (-17)) /\
  scale_to_int (Finite false 1234567890123456789012345679 (-17)) 18
    = Ok 12345678901234567890123456790.
Proof. split; vm_compute; reflexivity. Qed.

(** ** Amounts the conversion cannot take, and amounts below one unit *)

Lemma scale_to_int_non_finite x k e :
  0 <= k -> non_finite_error x = Some e -> scale_to_int x k = Err e.
Proof.
  intros Hk Hx. unfold scale_to_int. rewrite of_int_pow10 by lia.
  destruct x as [sign c ex | sign | sign [|]]; simpl in Hx; try discriminate;
    injection Hx as <-; simpl; try reflexivity.
  destruct (N.eqb_spec (Z.to_N (10 ^ k)) 0) as [Hz|_]; [|reflexivity].
  pose proof (pow10_pos k Hk). lia.
Qed.

(** X9. An amount that is a NaN or an infinity makes the builder fail
    once the addresses are checked and the nonce is known: with
    [InvalidOperation] for a signaling NaN, [ValueError] for a quiet NaN and
    [OverflowError] for an infinity; the chain id and the fees play no
    part. *)
Theorem non_finite_amount_fails
    (w3 : Web3) (from_address to_address : str) (value_eth : Decimal)
    (gas : option Z) (gas_price_gwei mpf mf : option Decimal)
    (nonce chain_id : option Z) (fa ta : str) (n : Z) (e : exn) :
  toChecksumAddress w3 from_address = Ok fa ->
  toChecksumAddress w3 to_address = Ok ta ->
  resolve_nonce w3 nonce fa = Ok n ->
  non_finite_error value_eth = Some e ->
  build_eth_transaction w3 from_address to_address value_eth gas
    gas_price_gwei mpf mf nonce chain_id = Err e.
Proof.
  intros Hfa Hta Hn He.
  pose proof (scale_to_int_non_finite value_eth 18 e ltac:(lia) He) as Hv.
  unfold build_eth_transaction, resolve_nonce in *.
  rewrite Hfa; simpl. rewrite Hta; simpl. rewrite Hn; simpl.
  rewrite Hv. reflexivity.
Qed.

Lemma non_finite_amount_fails_witness :
  build_eth_transaction fake_w3 alice bob (NaN false false) None None None None None None
  = Err (ValueError "cannot convert NaN to integer").
Proof.
  exact (non_finite_amount_fails fake_w3 alice bob (NaN false false) None None None
           None None None alice bob 7 _ eq_refl eq_refl eq_refl eq_refl).
Defined.

(** Scaling cuts towards zero whatever the number of fractional digits,
    as long as the coefficient fits the precision. *)
Lemma scale_to_int_truncates sign c e k :
  0 <= k <= 18 ->
  ndigits (Z.of_N c) <= decimal.prec ->
  -999990 <= e ->
  ndigits (Z.of_N c) + e + k - 1 <= decimal.Emax ->
  scale_to_int (Finite sign c e) k = Ok (signed sign (scaled (Z.of_N c) (e + k))).
Proof.
  intros Hk Hprec He Hmax.
  unfold scale_to_int. rewrite of_int_pow10 by lia.
  unfold decimal.mul. rewrite Z2N.id by (pose proof (pow10_pos k); lia).
  rewrite xorb_false_r, Z.add_0_r.
  pose proof (pow10_pos k ltac:(lia)) as Hpk.
  unfold decimal.fix_.
  destruct (Z.eqb_spec (Z.of_N c * 10 ^ k) 0) as [Hz|Hnz].
  - assert (Hc : Z.of_N c = 0) by nia.
    unfold decimal.Etiny, decimal.Emin, decimal.Emax, decimal.prec in *.
    rewrite Hc in *. change (ndigits 0) with 1 in Hmax.
    rewrite Z.max_l, Z.min_l by lia.
    simpl. unfold scaled, signed.
    destruct (0 <=? e), (0 <=? e + k), sign; simpl; f_equal; try lia;
      rewrite ?Z.div_0_l; try lia;
      try (apply Z.pow_nonzero; lia).
  - assert (Hc : 0 < Z.of_N c) by nia.
    rewrite ndigits_shift by lia.
    unfold decimal.Etop, decimal.Etiny, decimal.Emin, decimal.Emax, decimal.prec in *.
    destruct (ndigits_spec _ Hc) as (_ & Hd).
    set (d := ndigits (Z.of_N c)) in *.
    destruct (Z.ltb_spec (999999 - 28 + 1) (d + k + e - 28)) as [?|_]; [lia|].
    destruct (Z.ltb_spec (d + k + e - 28) (-999999 - 28 + 1)) as [?|_]; [lia|].
    destruct (Z.ltb_spec e (d + k + e - 28)) as [Hround|Hfit].
    + destruct (Z.ltb_spec (d + k + e - (d + k + e - 28)) 0) as [?|_]; [lia|].
      replace (d + k + e - 28 - e) with (d + k - 28) by lia.
      rewrite mod_pow10_ge, div_pow10_ge by lia.
      unfold decimal.round_half_even_up.
      pose proof (pow10_pos (d + k - 28) ltac:(lia)).
      destruct (Z.ltb_spec (10 ^ (d + k - 28)) (2 * 0)) as [?|_]; [lia|].
      destruct (Z.eqb_spec (2 * 0) (10 ^ (d + k - 28))) as [?|_]; [lia|].
      destruct (Z.ltb_spec (999999 - 28 + 1) (d + k + e - 28)) as [?|_]; [lia|].
      simpl.
      pose proof (pow10_pos (k - (d + k - 28)) ltac:(lia)).
      rewrite Z2N.id by nia.
      unfold scaled, signed.
      replace (k - (d + k - 28)) with (28 - d) by lia.
      destruct (Z.leb_spec 0 (d + k + e - 28)) as [Hnn|Hneg];
        destruct (Z.leb_spec 0 (e + k)) as [Hnn'|Hneg']; try lia; f_equal.
      * replace (e + k) with ((28 - d) + (d + k + e - 28)) by lia.
        rewrite pow10_split by lia. destruct sign; ring.
      * rewrite div_pow10_ge by lia.
        replace (28 - d - - (d + k + e - 28)) with (e + k) by lia.
        destruct sign; ring.
      * rewrite div_pow10_le by lia.
        replace (- (d + k + e - 28) - (28 - d)) with (- (e + k)) by lia.
        destruct sign; ring.
    + simpl. rewrite Z2N.id by nia.
      unfold scaled, signed.
      destruct (Z.leb_spec 0 e) as [Hnn|Hneg];
        destruct (Z.leb_spec 0 (e + k)) as [Hnn'|Hneg']; try lia; f_equal.
      * rewrite pow10_split by lia. destruct sign; ring.
      * rewrite div_pow10_ge by lia.
        replace (k - - e) with (e + k) by lia. destruct sign; ring.
      * rewrite div_pow10_le by lia.
        replace (- e - k) with (- (e + k)) by lia. destruct sign; ring.
Qed.

(** X10. An amount with more than 18 fractional digits (and at most 28
    significant digits) is cut towards zero by the builder, never rounded
    up: the ["value"] of the transaction is no larger in magnitude than the
    amount and less than one wei away from it; an amount below one wei
    becomes 0. *)
Theorem value_is_cut_below_one_wei
    (w3 : Web3) (from_address to_address : str) (sign : bool) (c : N) (e : Z)
    (gas : option Z) (gas_price_gwei mpf mf : option Decimal)
    (nonce chain_id : option Z) (tx : gmap string pyobj) :
  ndigits (Z.of_N c) <= 28 -> -999990 <= e < -18 ->
  build_eth_transaction w3 from_address to_address (Finite sign c e) gas
    gas_price_gwei mpf mf nonce chain_id = Ok tx ->
  exists wei,
    tx !! "value" = Some (VInt (signed sign wei)) /\
    wei * 10 ^ (- (e + 18)) <= Z.of_N c < (wei + 1) * 10 ^ (- (e + 18)) /\
    (Z.of_N c < 10 ^ (- (e + 18)) -> wei = 0).
Proof.
  intros Hd He Hbuild.
  exists (Z.of_N c / 10 ^ (- (e + 18))).
  pose proof (pow10_pos (- (e + 18)) ltac:(lia)) as Hp.
  split; [|split].
  - apply build_value_field in Hbuild as (v & Hv & Htx).
    rewrite scale_to_int_truncates in Hv
      by (unfold decimal.prec, decimal.Emax; lia).
    injection Hv as <-. rewrite Htx. unfold scaled.
    destruct (Z.leb_spec 0 (e + 18)); [lia | reflexivity].
  - pose proof (Z.div_mod (Z.of_N c) (10 ^ (- (e + 18))) ltac:(lia)).
    pose proof (Z.mod_pos_bound (Z.of_N c) (10 ^ (- (e + 18))) Hp). nia.
  - intros Hsmall. apply Z.div_small. lia.
Qed.

(** 1.9999999999999999999 ETH: the twentieth digit is cut. *)
Lemma value_is_cut_below_one_wei_witness :
  exists tx wei,
    build_eth_transaction fake_w3 alice bob (Finite false 19999999999999999999 (-19))
      None None None None None None = Ok tx /\
    (tx !! "value") = Some (VInt wei) /\ wei = 1999999999999999999.
Proof.
  pose proof (fake_build_value (Finite false 19999999999999999999 (-19))
                1999999999999999999 ltac:(vm_compute; reflexivity)) as Hbuild.
  destruct (value_is_cut_below_one_wei fake_w3 alice bob false 19999999999999999999 (-19)
              None None None None None None _
              ltac:(vm_compute; discriminate) ltac:(lia) Hbuild) as (wei & Hval & Hb & _).
  eexists. exists wei. split; [exact Hbuild|]. split; [exact Hval|].
  change (10 ^ (- (-19 + 18))) with 10 in Hb.
  change (Z.of_N 19999999999999999999) with 19999999999999999999 in Hb. lia.
Defined.

(** ** Division never fails on what a node can report *)

Lemma ndigits_fuel_le fuel : forall n, decimal.ndigits_fuel fuel n <= Z.of_nat fuel + 1.
Proof.
  induction fuel as [|fuel IH]; intros n; [simpl; lia|].
  cbn [decimal.ndigits_fuel].
  destruct (n <? 10); [lia|]. specialize (IH (n / 10)). lia.
Qed.

Lemma ndigits_le_log2 n : ndigits n <= Z.log2 n + 2.
Proof.
  unfold ndigits.
  pose proof (ndigits_fuel_le (S (Z.to_nat (Z.log2 n))) n) as H.
  pose proof (Z.log2_nonneg n). lia.
Qed.

Lemma ndigits_le_of_le_pow2 n b : 0 <= b -> n <= 2 ^ b -> ndigits n <= b + 2.
Proof.
  intros Hb Hn. pose proof (ndigits_le_log2 n).
  pose proof (Z.log2_le_mono n (2 ^ b) Hn) as Hl.
  rewrite Z.log2_pow2 in Hl by assumption. lia.
Qed.

(** Rounding to the context succeeds as long as the value is nowhere near
    the largest exponent. *)
Lemma fix_returns sign c e :
  ndigits c + e <= 999000 ->
  exists c' e', decimal.fix_ sign c e = Ok (Finite sign c' e').
Proof.
  intros Hb.
  unfold decimal.fix_, decimal.Etop, decimal.Etiny, decimal.Emax, decimal.Emin, decimal.prec.
  destruct (c =? 0); [eauto|].
  destruct (Z.ltb_spec (999999 - 28 + 1) (ndigits c + e - 28)) as [?|_]; [lia|].
  set (exp_min := if ndigits c + e - 28 <? -999999 - 28 + 1
                  then -999999 - 28 + 1 else ndigits c + e - 28).
  assert (Hmin : exp_min <= 999000).
  { unfold exp_min. destruct (_ <? _); lia. }
  clearbody exp_min.
  destruct (e <? exp_min); [|eauto].
  destruct (ndigits c + e - exp_min <? 0);
    cbv beta iota zeta;
    (destruct (decimal.round_half_even_up _ _ _);
     [destruct (28 <? ndigits _)|]);
    cbv beta iota zeta;
    match goal with
    | |- context [Z.ltb ?a ?b] => destruct (Z.ltb_spec a b) as [?|_]; [lia | eauto]
    end.
Qed.

Lemma strip_zeros_bounds steps : forall c e,
  0 <= c ->
  0 <= (strip_zeros steps c e).1 <= c /\
  e <= (strip_zeros steps c e).2 <= e + Z.of_nat steps.
Proof.
  induction steps as [|steps IH]; intros c e Hc; [simpl; lia|].
  cbn [strip_zeros].
  destruct (c mod 10 =? 0); [|simpl; lia].
  assert (Hdiv : 0 <= c / 10 <= c).
  { split; [apply Z.div_pos; lia|]. apply Z.div_le_upper_bound; lia. }
  specialize (IH (c / 10) (e + 1) ltac:(lia)). lia.
Qed.

Lemma pow10_le_pow2 k : 0 <= k -> 10 ^ k <= 2 ^ (4 * k).
Proof.
  intros Hk. rewrite Z.pow_mul_r by lia. change (2 ^ 4) with 16.
  apply Z.pow_le_mono_l. lia.
Qed.

(** The quotient of a 256-bit number by a power of ten up to [10^255] is
    always there: no condition of the decimal context is signalled. *)
Lemma truediv_pow10_returns sign a k :
  0 <= a < 2 ^ 256 -> 0 <= k <= 255 ->
  exists c e,
    Decimal_truediv (Finite sign (Z.to_N a) 0) (Finite false (Z.to_N (10 ^ k)) 0)
      = Ok (Finite sign c e).
Proof.
  intros Ha Hk.
  pose proof (pow10_pos k ltac:(lia)) as Hpk.
  unfold Decimal_truediv. rewrite !Z2N.id by lia. rewrite xorb_false_r.
  destruct (Z.eqb_spec (10 ^ k) 0) as [?|_]; [lia|].
  destruct (Z.eqb_spec a 0) as [?|Hnz]; [apply fix_returns; subst; vm_compute; discriminate|].
  assert (Hpos : 0 < a) by lia.
  rewrite ndigits_pow10 by lia. unfold decimal.prec.
  destruct (ndigits_spec a Hpos) as (_ & Hd1).
  pose proof (ndigits_le_of_le_pow2 a 256 ltac:(lia) ltac:(lia)) as Hd2.
  set (d := ndigits a) in *.
  set (shift := k + 1 - d + 28 + 1).
  assert (Hshift : -258 <= shift <= 285) by (unfold shift; lia).
  set (exp := 0 - 0 - shift).
  assert (Hsteps : exp + Z.of_nat (Z.to_nat (0 - 0 - exp)) <= 258) by (unfold exp; lia).
  assert (Hbig : forall q, 0 <= q <= a * 10 ^ 285 -> ndigits (q + 1) <= 1400 /\ ndigits q <= 1400).
  { intros q Hq.
    pose proof (pow10_le_pow2 285 ltac:(lia)) as H10. change (4 * 285) with 1140 in H10.
    assert (Hq2 : q + 1 <= 2 ^ 1396).
    { replace 1396 with (256 + 1140) by lia. rewrite Z.pow_add_r by lia.
      pose proof (pow10_pos 285 ltac:(lia)). nia. }
    pose proof (ndigits_le_of_le_pow2 (q + 1) 1396 ltac:(lia) Hq2).
    pose proof (ndigits_le_of_le_pow2 q 1396 ltac:(lia) ltac:(lia)).
    lia. }
  assert (Hq : forall coeff, 0 <= coeff <= a * 10 ^ 285 ->
     exists c e,
       (let '(coeff, exp) :=
          if (if 0 <=? shift then (a * 10 ^ shift) mod 10 ^ k
              else a mod (10 ^ k * 10 ^ (- shift))) =? 0
          then strip_zeros (Z.to_nat (0 - 0 - exp)) coeff exp
          else (if coeff mod 5 =? 0 then coeff + 1 else coeff, exp) in
        decimal.fix_ sign coeff exp) = Ok (Finite sign c e)).
  { intros coeff Hc.
    destruct (_ =? 0).
    - pose proof (strip_zeros_bounds (Z.to_nat (0 - 0 - exp)) coeff exp ltac:(lia)) as Hs.
      destruct (strip_zeros _ coeff exp) as [c' e']. simpl in Hs.
      apply fix_returns.
      destruct (Hbig c' ltac:(lia)) as [_ Hn]. lia.
    - apply fix_returns.
      destruct (Hbig coeff Hc) as [Hn1 Hn].
      destruct (coeff mod 5 =? 0); unfold exp; lia. }
  destruct (Z.leb_spec 0 shift) as [Hs|Hs].
  - apply (Hq ((a * 10 ^ shift) / 10 ^ k)).
    split; [apply Z.div_pos; pose proof (pow10_pos shift Hs); nia|].
    apply Z.le_trans with (a * 10 ^ shift).
    + apply Z.div_le_upper_bound; [lia|].
      pose proof (pow10_pos shift Hs). nia.
    + apply Z.mul_le_mono_nonneg_l; [lia|]. apply pow10_le. lia.
  - pose proof (pow10_pos (- shift) ltac:(lia)) as Hps.
    assert (Hp : 1 <= 10 ^ k * 10 ^ (- shift)) by (clear - Hpk Hps; nia).
    apply (Hq (a / (10 ^ k * 10 ^ (- shift)))).
    generalize dependent (10 ^ k * 10 ^ (- shift)). intros p _ Hp.
    split; [apply Z.div_pos; lia|].
    apply Z.le_trans with a.
    + apply Z.div_le_upper_bound; [lia|]. clear - Hpos Hp. nia.
    + pose proof (pow10_pos 285 ltac:(lia)) as H285. clear - Hpos H285. nia.
Qed.

(** ** More on verification *)

Lemma HexBytes_of_str_unprefixed s :
  has_hex_prefix s = false ->
  HexBytes_of_str s
  = (ascii_hex ← encode_ascii (if Nat.odd (length s) then 48%N :: s else s);
     unhexlify ascii_hex).
Proof.
  intros H. unfold HexBytes_of_str.
  replace (match s with
           | 48%N :: 120%N :: rest => rest
           | 48%N :: 88%N :: rest => rest
           | _ => s
           end) with s; [reflexivity|].
  unfold has_hex_prefix in H.
  repeat match type of H with
         | context [match ?x with _ => _ end] => destruct x; try reflexivity; try discriminate
         end.
Qed.

Lemma HexBytes_of_str_prefixed s :
  HexBytes_of_str (lit "0x" ++ s)
  = (ascii_hex ← encode_ascii (if Nat.odd (length s) then 48%N :: s else s);
     unhexlify ascii_hex).
Proof.
  unfold HexBytes_of_str.
  change (lit "0x" ++ s) with (48%N :: 120%N :: s).
  cbn [length]. rewrite Nat.odd_succ_succ. reflexivity.
Qed.

(** X11. The signature may be given with or without the ["0x"] prefix:
    verification is the same. *)
Theorem verify_message_prefix_optional
    (C : crypto) (signature_hex message : str) (w3 : Web3) :
  has_hex_prefix signature_hex = false ->
  verify_message C (lit "0x" ++ signature_hex) message w3
  = verify_message C signature_hex message w3.
Proof.
  intros H. unfold verify_message, Account.recover_message.
  rewrite HexBytes_of_str_prefixed, (HexBytes_of_str_unprefixed _ H). reflexivity.
Qed.

Lemma verify_message_prefix_optional_witness :
  verify_message tracing_crypto (lit "0xc0ffee") (lit "hi") fake_w3 = Ok (lit "c0ffee") /\
  verify_message tracing_crypto (lit "c0ffee") (lit "hi") fake_w3 = Ok (lit "c0ffee").
Proof.
  split.
  - change (lit "0xc0ffee") with (lit "0x" ++ lit "c0ffee").
    rewrite (verify_message_prefix_optional tracing_crypto (lit "c0ffee") (lit "hi")
               fake_w3 eq_refl).
    reflexivity.
  - reflexivity.
Defined.

Lemma unhexlify_non_hex_aux n : forall s,
  (length s <= n)%nat -> is_ascii s = true -> has_non_hex s = true ->
  exists msg, unhexlify (byte_of_N <$> s) = Err (ValueError msg).
Proof.
  induction n as [|n IH]; intros s Hlen Hascii Hbad.
  - destruct s; [discriminate | simpl in Hlen; lia].
  - destruct s as [|h [|l rest]]; [discriminate | simpl; eauto |].
    cbn [is_ascii forallb] in Hascii.
    apply andb_true_iff in Hascii as [Hh Hascii].
    apply andb_true_iff in Hascii as [Hl Hascii].
    apply N.ltb_lt in Hh, Hl.
    cbn [fmap list_fmap unhexlify]. cbn [has_non_hex existsb] in Hbad.
    rewrite !to_N_byte_of_N by lia.
    destruct (hex_value h) as [x|]; [|eauto].
    destruct (hex_value l) as [y|]; [|eauto].
    simpl in Hbad.
    destruct (IH rest) as (msg & Hmsg); [simpl in Hlen; lia | exact Hascii | exact Hbad |].
    change (list_fmap N byte byte_of_N rest) with (byte_of_N <$> rest).
    rewrite Hmsg. simpl. eauto.
Qed.

Lemma unhexlify_non_hex s :
  is_ascii s = true -> has_non_hex s = true ->
  exists msg, unhexlify (byte_of_N <$> s) = Err (ValueError msg).
Proof. apply (unhexlify_non_hex_aux (length s)). lia. Qed.

Lemma encode_defunct_not_encodable text :
  encodable text = false ->
  exists msg, encode_defunct text = Err (UnicodeEncodeError msg).
Proof.
  intros H. apply encode_utf8_not_encodable in H as (msg & H).
  unfold encode_defunct. rewrite H. simpl. eauto.
Qed.

Lemma decimal_digits_encodable fuel : forall n acc,
  encodable acc = true -> encodable (decimal_digits fuel n acc) = true.
Proof.
  induction fuel as [|fuel IH]; intros n acc Hacc; [exact Hacc|].
  cbn [decimal_digits].
  assert (Hd : encodable ((48 + n mod 10)%N :: acc) = true).
  { cbn [encodable forallb]. fold (encodable acc). rewrite Hacc, andb_true_r.
    pose proof (N.mod_lt n 10 ltac:(lia)) as Hlt.
    unfold is_scalar_value, is_surrogate.
    apply andb_true_iff. split.
    - apply N.ltb_lt. lia.
    - apply negb_true_iff, andb_false_iff. left. apply N.leb_gt. lia. }
  destruct (n <? 10)%N; [exact Hd | apply IH; exact Hd].
Qed.

Lemma str_of_N_encodable n : encodable (str_of_N n) = true.
Proof. apply decimal_digits_encodable. reflexivity. Qed.

Lemma encode_defunct_encodable text :
  encodable text = true ->
  exists message_bytes msg_length,
    encode_utf8 text = Ok message_bytes /\
    encode_utf8 (str_of_N (N.of_nat (length message_bytes))) = Ok msg_length /\
    encode_defunct text
    = Ok {| version := [x45]; header := header_prefix ++ msg_length;
            body := message_bytes |}.
Proof.
  intros H.
  destruct (encode_utf8_encodable text H) as (message_bytes & Hb).
  destruct (encode_utf8_encodable _ (str_of_N_encodable (N.of_nat (length message_bytes))))
    as (msg_length & Hl).
  exists message_bytes, msg_length. split; [exact Hb|]. split; [exact Hl|].
  unfold encode_defunct. rewrite Hb. simpl. rewrite Hl. reflexivity.
Qed.

(** X12. A signature string that is not hexadecimal text is refused
    before any recovery is attempted, whatever the cryptographic back end
    (the text being encodable): with [ValueError] when it is ASCII and has
    a character that is no hexadecimal digit, with [UnicodeEncodeError]
    when it has a character outside ASCII. *)
Theorem verify_message_rejects_non_hex
    (C : crypto) (signature_hex message : str) (w3 : Web3) :
  encodable message = true ->
  has_hex_prefix signature_hex = false ->
  (is_ascii signature_hex = true -> has_non_hex signature_hex = true ->
   exists msg, verify_message C signature_hex message w3 = Err (ValueError msg)) /\
  (is_ascii signature_hex = false ->
   exists msg, verify_message C signature_hex message w3 = Err (UnicodeEncodeError msg)).
Proof.
  intros Hm Hprefix.
  destruct (encode_defunct_encodable message Hm) as (mb & ml & _ & _ & Hmsg).
  unfold verify_message, Account.recover_message. rewrite Hmsg.
  cbn [mbind result_bind].
  rewrite (HexBytes_of_str_unprefixed _ Hprefix).
  match goal with |- context [encode_ascii ?p] => set (padded := p) end.
  assert (Hpad : is_ascii padded = is_ascii signature_hex).
  { unfold padded. destruct (Nat.odd (length signature_hex)); reflexivity. }
  unfold encode_ascii. rewrite Hpad.
  split.
  - intros Hascii Hbad. rewrite Hascii. cbn [mbind result_bind].
    destruct (unhexlify_non_hex padded) as (msg & ->).
    + rewrite Hpad. exact Hascii.
    + unfold padded. destruct (Nat.odd (length signature_hex)); [|exact Hbad].
      cbn [has_non_hex existsb]. exact Hbad.
    + simpl. eauto.
  - intros Hascii. rewrite Hascii. simpl. eauto.
Qed.

(** ["signature"] has letters that are no digits; ["éé"] is not ASCII. *)
Lemma verify_message_rejects_non_hex_witness :
  (exists msg,
     verify_message tracing_crypto (lit "signature") (lit "hi") fake_w3
     = Err (ValueError msg)) /\
  (exists msg,
     verify_message tracing_crypto [233%N; 233%N] (lit "hi") fake_w3
     = Err (UnicodeEncodeError msg)).
Proof.
  split.
  - exact (proj1 (verify_message_rejects_non_hex tracing_crypto (lit "signature")
                    (lit "hi") fake_w3 eq_refl eq_refl) eq_refl eq_refl).
  - exact (proj2 (verify_message_rejects_non_hex tracing_crypto [233%N; 233%N]
                    (lit "hi") fake_w3 eq_refl eq_refl) eq_refl).
Defined.

(** X13. A text that UTF-8 cannot encode (a lone surrogate) makes
    verification raise [UnicodeEncodeError] before the signature is even
    parsed, whatever the signature and the back end. *)
Theorem verify_message_rejects_unencodable_text
    (C : crypto) (signature_hex message : str) (w3 : Web3) :
  encodable message = false ->
  exists msg, verify_message C signature_hex message w3 = Err (UnicodeEncodeError msg).
Proof.
  intros H. destruct (encode_defunct_not_encodable message H) as (msg & Hmsg).
  unfold verify_message. rewrite Hmsg. simpl. eauto.
Qed.

Lemma verify_message_rejects_unencodable_text_witness :
  exists msg,
    verify_message tracing_crypto (lit "not even hex") lone_surrogate fake_w3
    = Err (UnicodeEncodeError msg).
Proof.
  exact (verify_message_rejects_unencodable_text tracing_crypto (lit "not even hex")
           lone_surrogate fake_w3 eq_refl).
Defined.

Lemma length_encode_code_point c b :
  encode_code_point c = Ok b -> (1 <= length b <= 4)%nat.
Proof.
  unfold encode_code_point.
  repeat match goal with |- context [if ?x then _ else _] => destruct x end;
    intros [= <-]; simpl; lia.
Qed.

Lemma length_encode_utf8 s : forall bs,
  encode_utf8 s = Ok bs -> (length s <= length bs <= 4 * length s)%nat.
Proof.
  induction s as [|c s IH]; intros bs H.
  - injection H as <-. simpl. lia.
  - cbn [encode_utf8] in H.
    apply bind_Ok in H as (b & Hb & H).
    apply bind_Ok in H as (bs' & Hbs & H). injection H as <-.
    apply length_encode_code_point in Hb. specialize (IH _ Hbs).
    rewrite length_app. simpl. lia.
Qed.

(** X14. The message that is signed and verified carries the text as its
    UTF-8 bytes, and the length written in the header is the number of
    those bytes, not of characters: between one and four per character. *)
Theorem encode_defunct_counts_bytes (text : str) :
  encodable text = true ->
  exists msg msg_length,
    encode_defunct text = Ok msg /\
    encode_utf8 text = Ok (body msg) /\
    version msg = [x45] /\
    encode_utf8 (str_of_N (N.of_nat (length (body msg)))) = Ok msg_length /\
    header msg = header_prefix ++ msg_length /\
    (length text <= length (body msg) <= 4 * length text)%nat.
Proof.
  intros H.
  destruct (encode_defunct_encodable text H) as (mb & ml & Hb & Hl & Hmsg).
  eexists. exists ml. split; [exact Hmsg|]. simpl.
  split; [exact Hb|]. split; [reflexivity|]. split; [exact Hl|].
  split; [reflexivity|]. apply length_encode_utf8. exact Hb.
Qed.

(** "né": two characters, three bytes. *)
Lemma encode_defunct_counts_bytes_witness :
  exists msg,
    encode_defunct [110%N; 233%N] = Ok msg /\
    body msg = [x6e; xc3; xa9] /\
    header msg = header_prefix ++ [x33].
Proof.
  destruct (encode_defunct_counts_bytes [110%N; 233%N] eq_refl)
    as (msg & ml & Hmsg & Hb & _ & Hl & Hh & _).
  exists msg. split; [exact Hmsg|].
  assert (Hbody : body msg = [x6e; xc3; xa9]).
  { change (encode_utf8 [110%N; 233%N]) with (Ok [x6e; xc3; xa9]) in Hb.
    injection Hb as <-. reflexivity. }
  split; [exact Hbody|].
  rewrite Hbody in Hl.
  change (encode_utf8 (str_of_N (N.of_nat (length [x6e; xc3; xa9])))) with (Ok [x33]) in Hl.
  injection Hl as <-. exact Hh.
Defined.

(** X15. The signature printed by [HexBytes.hex()], which is what
    [sign_message] puts under ["signature"], is parsed back by
    [verify_message] to the very same bytes, and recovery runs on them
    and on the message [sign_message] signs. *)
Theorem verify_message_parses_printed_signature
    (C : crypto) (sig : list byte) (message : str) (w3 : Web3) :
  HexBytes_of_str (HexBytes_hex sig) = Ok sig /\
  verify_message C (HexBytes_hex sig) message w3
  = (msg ← encode_defunct message; recover_signer C msg sig).
Proof.
  split; [apply HexBytes_round_trip|].
  unfold verify_message, Account.recover_message.
  rewrite HexBytes_round_trip. reflexivity.
Qed.

(** ** Seeds *)

Lemma encode_utf8_ascii s : is_ascii s = true -> encode_utf8 s = Ok (byte_of_N <$> s).
Proof.
  induction s as [|c s IH]; intros H; [reflexivity|].
  cbn [is_ascii forallb] in H. apply andb_true_iff in H as [Hc Hs].
  cbn [encode_utf8]. unfold encode_code_point.
  apply N.ltb_lt in Hc.
  destruct (N.ltb_spec c 128) as [_|?]; [|lia].
  simpl. rewrite (IH Hs). reflexivity.
Qed.

Lemma is_ascii_app s t : is_ascii (s ++ t) = is_ascii s && is_ascii t.
Proof. apply forallb_app. Qed.

(** X16. For a mnemonic and a passphrase in ASCII, which the mnemonics of
    the English word list are, the seed is PBKDF2-HMAC-SHA512 of the
    characters of the mnemonic, salted with ["mnemonic"] followed by the
    passphrase, 2048 rounds: the Unicode tables play no part. *)
Theorem seed_of_ascii_mnemonic (U : unicodedata) (mnemonic passphrase : str) :
  is_ascii mnemonic = true -> is_ascii passphrase = true ->
  mnemonic_to_seed U mnemonic passphrase
  = Ok (hashlib.pbkdf2_hmac_sha512 (byte_of_N <$> mnemonic)
          (byte_of_N <$> (lit "mnemonic" ++ passphrase)) 2048).
Proof.
  intros Hm Hp. apply mnemonic_to_seed_ok.
  - unfold seed_password, Mnemonic.normalize_string.
    rewrite (NFKD_ascii U _ Hm). apply encode_utf8_ascii, Hm.
  - unfold seed_salt, Mnemonic.normalize_string.
    rewrite (NFKD_ascii U _ Hp). apply encode_utf8_ascii.
    rewrite is_ascii_app, Hp. reflexivity.
Qed.

Lemma seed_of_ascii_mnemonic_witness :
  mnemonic_to_seed no_decompositions not_a_mnemonic (lit "TREZOR")
  = Ok (hashlib.pbkdf2_hmac_sha512 (byte_of_N <$> not_a_mnemonic)
          (byte_of_N <$> lit "mnemonicTREZOR") 2048).
Proof.
  exact (seed_of_ascii_mnemonic no_decompositions not_a_mnemonic (lit "TREZOR")
           eq_refl eq_refl).
Defined.

(** X17. A seed is 64 bytes long, whatever the mnemonic and the
    passphrase. *)
Theorem seed_is_64_bytes (U : unicodedata) (mnemonic passphrase : str) (seed : list byte) :
  mnemonic_to_seed U mnemonic passphrase = Ok seed -> length seed = 64%nat.
Proof.
  rewrite mnemonic_to_seed_unfold. intros H.
  apply bind_Ok in H as (mb & _ & H).
  apply bind_Ok in H as (pb & _ & H).
  injection H as <-.
  rewrite length_take, length_pbkdf2_hmac_sha512. reflexivity.
Qed.

Lemma seed_is_64_bytes_witness :
  exists seed,
    mnemonic_to_seed no_decompositions not_a_mnemonic [] = Ok seed /\
    length seed = 64%nat.
Proof.
  pose proof (mnemonic_to_seed_is_ok no_decompositions not_a_mnemonic []) as H.
  destruct (mnemonic_to_seed no_decompositions not_a_mnemonic []) as [seed|e] eqn:Hs.
  - exists seed. split; [reflexivity|].
    exact (seed_is_64_bytes no_decompositions not_a_mnemonic [] seed Hs).
  - discriminate H.
Defined.

(** ** Derived accounts *)

(** The class is left as it was, and every failure is the same
    [RuntimeError]. *)
Lemma derive_account_result (C : crypto) (mnemonic : str) (index : Z) (passphrase : str)
    (cls : AccountClass) :
  (derive_account_from_mnemonic C mnemonic index passphrase cls).2 = cls /\
  forall e,
    (derive_account_from_mnemonic C mnemonic index passphrase cls).1 = Err e ->
    e = RuntimeError from_mnemonic_unsupported.
Proof.
  unfold derive_account_from_mnemonic.
  destruct (Account.from_mnemonic C cls mnemonic passphrase _) as [acct|e'];
    simpl; (split; [reflexivity|]); intros e H; [discriminate|].
  injection H as <-. reflexivity.
Qed.

(** X18. [derive_account_from_mnemonic] hides the cause of every failure:
    a disabled feature, a mnemonic the library refuses and a path it
    cannot walk all come out as the same [RuntimeError], which blames the
    version of the library; and the state of the [Account] class is left
    as it was. *)
Theorem derive_account_masks_the_cause
    (C : crypto) (mnemonic : str) (index : Z) (passphrase : str)
    (cls : AccountClass) (e : exn) :
  (derive_account_from_mnemonic C mnemonic index passphrase cls).1 = Err e ->
  e = RuntimeError from_mnemonic_unsupported /\
  (derive_account_from_mnemonic C mnemonic index passphrase cls).2 = cls.
Proof.
  intros H. destruct (derive_account_result C mnemonic index passphrase cls) as [Hcls He].
  split; [exact (He e H) | exact Hcls].
Qed.

(** The back end refuses the empty mnemonic with [ValueError]; the caller
    is told to upgrade. *)
Lemma derive_account_masks_the_cause_witness :
  key_from_mnemonic tracing_crypto [] [] (lit "m/44'/60'/0'/0/0")
    = Err (ValueError "not a mnemonic") /\
  exists e,
    (derive_account_from_mnemonic tracing_crypto [] 0 [] hdwallet_enabled).1 = Err e /\
    e = RuntimeError from_mnemonic_unsupported.
Proof.
  split; [reflexivity|]. eexists. split; [reflexivity|].
  exact (proj1 (derive_account_masks_the_cause tracing_crypto [] 0 [] hdwallet_enabled _
                  eq_refl)).
Defined.

(** X19. When an account is derived, the private key that is returned is
    the hexadecimal text, with ["0x"] in front, of the key the library
    derived on the path [m/44'/60'/0'/0/index]; it reads back to that key,
    and the address returned is the address of that key. *)
Theorem derived_key_matches_address
    (C : crypto) (mnemonic : str) (index : Z) (passphrase : str)
    (cls : AccountClass) (addr private_key_hex : str) :
  (derive_account_from_mnemonic C mnemonic index passphrase cls).1
    = Ok (addr, private_key_hex) ->
  exists k,
    use_unaudited_hdwallet_features cls = true /\
    key_from_mnemonic C mnemonic passphrase (lit "m/44'/60'/0'/0/" ++ str_of_int index)
      = Ok k /\
    private_key_hex = lit "0x" ++ bytes_hex k /\
    HexBytes_of_str private_key_hex = Ok k /\
    length private_key_hex = (2 + 2 * length k)%nat /\
    addr = private_key_to_address C k.
Proof.
  unfold derive_account_from_mnemonic, Account.from_mnemonic.
  destruct (use_unaudited_hdwallet_features cls); [|discriminate].
  destruct (key_from_mnemonic C mnemonic passphrase _) as [k|e] eqn:Hk;
    simpl; [|discriminate].
  intros [= <- <-]. exists k.
  split; [reflexivity|]. split; [reflexivity|]. split; [reflexivity|].
  split; [apply HexBytes_round_trip|]. split; [|reflexivity].
  unfold HexBytes_hex. rewrite length_app, length_bytes_hex. reflexivity.
Qed.

Lemma derived_key_matches_address_witness :
  exists k,
    (derive_account_from_mnemonic tracing_crypto not_a_mnemonic 7 [] hdwallet_enabled).1
      = Ok (private_key_to_address tracing_crypto k, lit "0x" ++ bytes_hex k) /\
    k = byte_of_N <$> lit "m/44'/60'/0'/0/7".
Proof.
  destruct (derived_key_matches_address tracing_crypto not_a_mnemonic 7 []
              hdwallet_enabled _ _ eq_refl) as (k & _ & Hk & _).
  exists k. injection Hk as <-. split; reflexivity.
Defined.

(** *** The path of an index *)

Lemma value_of_decimal_digits fuel : forall n acc,
  (n < 10 ^ N.of_nat fuel)%N ->
  value_of_digits (decimal_digits fuel n acc) 0%N = value_of_digits acc n.
Proof.
  induction fuel as [|fuel IH]; intros n acc Hn.
  - simpl in *. assert (n = 0%N) by lia. subst. reflexivity.
  - cbn [decimal_digits].
    assert (Hstep : value_of_digits ((48 + n mod 10)%N :: acc) (n / 10)%N
                    = value_of_digits acc n).
    { unfold value_of_digits. cbn [fold_left]. f_equal.
      pose proof (N.div_mod n 10 ltac:(lia)) as Hdm.
      rewrite (N.add_comm 48), N.add_sub. lia. }
    destruct (N.ltb_spec n 10) as [Hlt|Hge].
    + rewrite <- Hstep. rewrite (N.div_small n 10 Hlt). reflexivity.
    + rewrite IH; [exact Hstep|].
      rewrite Nat2N.inj_succ, N.pow_succ_r' in Hn.
      apply N.Div0.div_lt_upper_bound. lia.
Qed.

Lemma str_of_N_fuel n : (n < 10 ^ N.of_nat (S (N.to_nat (N.log2 n))))%N.
Proof.
  rewrite Nat2N.inj_succ, N2Nat.id.
  destruct (N.eq_dec n 0%N) as [->|Hn]; [reflexivity|].
  pose proof (N.log2_spec n ltac:(lia)) as [_ Hlt].
  eapply N.lt_le_trans; [exact Hlt|].
  apply N.pow_le_mono_l. lia.
Qed.

Lemma value_of_str_of_N n : value_of_digits (str_of_N n) 0%N = n.
Proof. unfold str_of_N. rewrite value_of_decimal_digits by apply str_of_N_fuel. reflexivity. Qed.

Lemma decimal_digits_are_digits fuel : forall n acc,
  Forall (fun c => 48 <= c)%N acc -> Forall (fun c => 48 <= c)%N (decimal_digits fuel n acc).
Proof.
  induction fuel as [|fuel IH]; intros n acc Hacc; [exact Hacc|].
  cbn [decimal_digits].
  assert (Forall (fun c => 48 <= c)%N ((48 + n mod 10)%N :: acc))
    by (constructor; [apply N.le_add_r | exact Hacc]).
  destruct (n <? 10)%N; [assumption | apply IH; assumption].
Qed.

Lemma str_of_N_no_sign n s : str_of_N n <> 45%N :: s.
Proof.
  intros H.
  pose proof (decimal_digits_are_digits (S (N.to_nat (N.log2 n))) n [] (List.Forall_nil _)) as Hd.
  fold (str_of_N n) in Hd. rewrite H in Hd.
  apply Forall_cons in Hd as [Hd _]. lia.
Qed.

Lemma str_of_int_inj i j : str_of_int i = str_of_int j -> i = j.
Proof.
  unfold str_of_int.
  destruct (Z.ltb_spec i 0) as [Hi|Hi], (Z.ltb_spec j 0) as [Hj|Hj]; intros H.
  - injection H as H. apply (f_equal (fun s => value_of_digits s 0%N)) in H.
    rewrite !value_of_str_of_N in H. lia.
  - symmetry in H. apply str_of_N_no_sign in H. contradiction.
  - apply str_of_N_no_sign in H. contradiction.
  - apply (f_equal (fun s => value_of_digits s 0%N)) in H.
    rewrite !value_of_str_of_N in H. lia.
Qed.

(** X20. Two indices are never sent down the same derivation path: the
    path asked of the library determines the index. *)
Theorem account_paths_differ (i j : Z) :
  lit "m/44'/60'/0'/0/" ++ str_of_int i = lit "m/44'/60'/0'/0/" ++ str_of_int j ->
  i = j.
Proof. intros H. apply app_inv_head in H. apply str_of_int_inj, H. Qed.

Lemma account_paths_differ_witness :
  lit "m/44'/60'/0'/0/" ++ str_of_int 12 = lit "m/44'/60'/0'/0/12" /\ 12 = 12.
Proof.
  split; [reflexivity|].
  exact (account_paths_differ 12 12 eq_refl).
Defined.

(** ** Balances read from a node *)

Lemma of_int_nonneg n : 0 <= n -> decimal.of_int n = Finite false (Z.to_N n) 0.
Proof.
  intros Hn. unfold decimal.of_int.
  destruct (Z.ltb_spec n 0); [lia|]. f_equal. lia.
Qed.



(** X22. A token that answers neither [decimals()] nor [symbol()] still
    has its balance read: 18 decimals and the empty symbol stand in, and no
    answer of those two calls can make [get_erc20_balance] fail.  Only the
    two address checks and [balanceOf] can. *)
Theorem erc20_balance_survives_missing_metadata
    (w3 : Web3) (eth : Eth) (token_address user_address token user : str) (raw : N) :
  toChecksumAddress w3 token_address = Ok token ->
  toChecksumAddress w3 user_address = Ok user ->
  balanceOf (eth_contract eth token) user = Ok raw ->
  (raw < 2 ^ 256)%N ->
  (forall d, decimals (eth_contract eth token) = Ok d -> (d < 256)%N) ->
  exists scaled,
    get_erc20_balance w3 eth token_address user_address
    = Ok (scaled,
          match decimals (eth_contract eth token) with Ok d => d | Err _ => 18%N end,
          match symbol (eth_contract eth token) with Ok s => s | Err _ => [] end).
Proof.
  intros Ht Hu Hraw Hbound Hdec.
  unfold get_erc20_balance.
  rewrite Ht; cbn [mbind result_bind]. rewrite Hu; cbn [mbind result_bind].
  rewrite Hraw; cbn [mbind result_bind].
  set (decs := try_or (decimals (eth_contract eth token)) 18%N).
  assert (Hd : (decs < 256)%N).
  { unfold decs, try_or. destruct (decimals (eth_contract eth token)) as [d|e];
      [apply Hdec; reflexivity | lia]. }
  rewrite of_int_nonneg, of_int_pow10 by lia.
  destruct (truediv_pow10_returns false (Z.of_N raw) (Z.of_N decs)) as (c & e & H).
  - apply N2Z.inj_lt in Hbound. rewrite N2Z.inj_pow in Hbound.
    split; [lia | exact Hbound].
  - lia.
  - rewrite H. cbn [mbind result_bind]. eauto.
Qed.

Lemma erc20_balance_survives_missing_metadata_witness :
  exists scaled,
    get_erc20_balance fake_w3 (fake_eth bare_token) alice bob = Ok (scaled, 18%N, []).
Proof.
  exact (erc20_balance_survives_missing_metadata fake_w3 (fake_eth bare_token) alice bob
           alice bob 1234567%N eq_refl eq_refl eq_refl eq_refl
           ltac:(intros d H; discriminate H)).
Defined.

(** X23. A token balance of at most 28 digits is scaled exactly: the
    decimal returned, times ten to the number of decimals, is the raw
    balance, and no digit is added beyond the token's decimals. *)
Theorem erc20_balance_is_exact
    (w3 : Web3) (eth : Eth) (token_address user_address token user : str)
    (raw : N) (scaled : Decimal) (decs : N) (sym : str) :
  toChecksumAddress w3 token_address = Ok token ->
  toChecksumAddress w3 user_address = Ok user ->
  balanceOf (eth_contract eth token) user = Ok raw ->
  get_erc20_balance w3 eth token_address user_address = Ok (scaled, decs, sym) ->
  (raw < 10 ^ 28)%N -> (decs < 256)%N ->
  exists c e,
    scaled = Finite false c e /\
    - Z.of_N decs <= e <= 0 /\
    Z.of_N c * 10 ^ (e + Z.of_N decs) = Z.of_N raw.
Proof.
  intros Ht Hu Hraw Hget Hsmall Hd.
  unfold get_erc20_balance in Hget.
  rewrite Ht in Hget; cbn [mbind result_bind] in Hget.
  rewrite Hu in Hget; cbn [mbind result_bind] in Hget.
  rewrite Hraw in Hget; cbn [mbind result_bind] in Hget.
  bind_inv Hget as q Hq. injection Hget as <- <- <-.
  set (decs := try_or (decimals (eth_contract eth token)) 18%N) in *.
  rewrite of_int_nonneg, of_int_pow10 in Hq by lia.
  pose proof (pow10_pos (Z.of_N decs) ltac:(lia)) as Hp.
  destruct (N.eq_dec raw 0%N) as [->|Hnz].
  - unfold Decimal_truediv in Hq. simpl Z.of_N in Hq. simpl Z.to_N in Hq.
    rewrite Z2N.id in Hq by lia.
    destruct (Z.eqb_spec (10 ^ Z.of_N decs) 0) as [?|_]; [lia|].
    simpl in Hq. injection Hq as <-.
    exists 0%N, 0. split; [reflexivity|]. split; lia.
  - destruct (truediv_pow10_exact false (Z.of_N raw) (Z.of_N decs))
      as (c & e & H & Hc & He & Hval); [lia | | lia |].
    { apply N2Z.inj_lt in Hsmall. rewrite N2Z.inj_pow in Hsmall. exact Hsmall. }
    rewrite H in Hq. injection Hq as <-.
    exists (Z.to_N c), e. split; [reflexivity|]. split; [exact He|].
    rewrite Z2N.id by lia. exact Hval.
Qed.

Lemma erc20_balance_is_exact_witness :
  get_erc20_balance fake_w3 (fake_eth six_decimals_token) alice bob
    = Ok (Finite false 25 (-1), 6%N, lit "USDX") /\
  exists c e,
    Finite false 25 (-1) = Finite false c e /\
    - 6 <= e <= 0 /\ Z.of_N c * 10 ^ (e + 6) = 2500000.
Proof.
  split; [vm_compute; reflexivity|].
  apply (erc20_balance_is_exact fake_w3 (fake_eth six_decimals_token) alice bob alice bob
           2500000%N (Finite false 25 (-1)) 6%N (lit "USDX")).
  - reflexivity.
  - reflexivity.
  - reflexivity.
  - vm_compute. reflexivity.
  - vm_compute. reflexivity.
  - vm_compute. reflexivity.
Defined.

(** ** The [generate] and [derive] commands *)

(** The loop prints a line for each account up to the first index [k]
    that cannot be derived, and ends there with that failure. *)
Lemma derive_each_run (C : crypto) (mnemonic passphrase : str)
    (line : Z -> str -> str -> str) (account : Z -> str * str) (cls : AccountClass) :
  forall (n k : nat) (i : Z) (out : stdout),
    (k <= n)%nat ->
    (forall j, (j < k)%nat ->
       (derive_account_from_mnemonic C mnemonic (i + Z.of_nat j) passphrase cls).1
       = Ok (account (i + Z.of_nat j))) ->
    ((k < n)%nat ->
       exists e,
         (derive_account_from_mnemonic C mnemonic (i + Z.of_nat k) passphrase cls).1
         = Err e) ->
    derive_each C mnemonic passphrase line n i cls out
    = (if (k <? n)%nat
       then Err (RuntimeError from_mnemonic_unsupported)
       else Ok tt,
       cls,
       out ++ ((fun j => line (i + Z.of_nat j) (account (i + Z.of_nat j)).1
                              (account (i + Z.of_nat j)).2) <$> seq 0 k)).
Proof.
  induction n as [|n IH]; intros k i out Hk Hok Herr.
  - assert (k = 0%nat) by lia. subst k. simpl. rewrite app_nil_r. reflexivity.
  - cbn [derive_each].
    destruct (derive_account_result C mnemonic i passphrase cls) as [Hcls Hmask].
    destruct (derive_account_from_mnemonic C mnemonic i passphrase cls) as [r cls'] eqn:Hd.
    simpl in Hcls, Hmask. subst cls'.
    destruct k as [|k].
    + destruct (Herr ltac:(lia)) as (e & He).
      rewrite Z.add_0_r, Hd in He. simpl in He. subst r.
      rewrite (Hmask e eq_refl). simpl. rewrite app_nil_r. reflexivity.
    + pose proof (Hok 0%nat ltac:(lia)) as H0.
      rewrite Z.add_0_r, Hd in H0. simpl in H0. subst r.
      destruct (account i) as [addr pk] eqn:Hacct.
      rewrite (IH k (i + 1) (safe_print (line i addr pk) out)).
      * replace (S k <? S n)%nat with (k <? n)%nat by reflexivity.
        f_equal. unfold safe_print. rewrite <- app_assoc. f_equal.
        cbn [seq fmap list_fmap]. rewrite Z.add_0_r, Hacct. simpl. f_equal.
        rewrite <- seq_shift, <- list_fmap_compose.
        apply list_fmap_ext. intros _ j _. simpl.
        replace (i + 1 + Z.of_nat j) with (i + Z.of_nat (S j)) by lia. reflexivity.
      * lia.
      * intros j Hj. replace (i + 1 + Z.of_nat j) with (i + Z.of_nat (S j)) by lia.
        apply Hok. lia.
      * intros Hlt. replace (i + 1 + Z.of_nat k) with (i + Z.of_nat (S k)) by lia.
        apply Herr. lia.
Qed.

(** X24. With the [Account] class as the library leaves it when it is
    imported, and nothing in the program changes it, the [generate]
    command prints the mnemonic and then fails: no address is shown and
    the closing advice is never reached, whichever words were drawn. *)
Theorem cmd_generate_shows_mnemonic_then_fails
    (C : crypto) (generate_mnemonic : Z -> str) (args : generate_args) (out : stdout) :
  cmd_generate C generate_mnemonic args Account_at_import out
  = (Err (RuntimeError from_mnemonic_unsupported),
     Account_at_import,
     out ++ [lit "=== MNEMONIC (KEEP IT SECRET!) ===";
             generate_mnemonic (if generate_long args then 256 else 128);
             [];
             lit "Deriving first 3 addresses:"]).
Proof.
  unfold cmd_generate.
  rewrite (derive_each_run C _ _ _ (fun _ => ([], [])) Account_at_import 3 0 0).
  - cbn [Nat.ltb Nat.leb seq fmap list_fmap]. unfold safe_print.
    rewrite app_nil_r, <- !app_assoc. simpl.
    destruct (generate_long args); reflexivity.
  - lia.
  - intros j Hj. lia.
  - intros _. eexists. reflexivity.
Qed.

(** X25. The [derive] command prints one line per account, in the order
    of the indices from 0, each with the address and the private key in
    clear, up to the first index that cannot be derived; there it stops
    with [RuntimeError], and it prints nothing else.  A count of zero or
    less prints nothing and succeeds. *)
Theorem cmd_derive_prints_until_first_failure
    (C : crypto) (typed : result str) (args : derive_args) (cls : AccountClass)
    (out : stdout) (mnemonic : str) (account : Z -> str * str) (k : nat) :
  match derive_mnemonic args with Some (c :: m) => Ok (c :: m) | _ => typed end
    = Ok mnemonic ->
  (k <= Z.to_nat (derive_count args))%nat ->
  (forall i, 0 <= i < Z.of_nat k ->
     (derive_account_from_mnemonic C mnemonic i (or_empty (derive_passphrase args)) cls).1
     = Ok (account i)) ->
  ((k < Z.to_nat (derive_count args))%nat ->
     exists e,
       (derive_account_from_mnemonic C mnemonic (Z.of_nat k)
          (or_empty (derive_passphrase args)) cls).1 = Err e) ->
  cmd_derive C typed args cls out
  = (if (k <? Z.to_nat (derive_count args))%nat
     then Err (RuntimeError from_mnemonic_unsupported)
     else Ok tt,
     cls,
     out ++ ((fun j => derive_line (Z.of_nat j) (account (Z.of_nat j))) <$> seq 0 k)).
Proof.
  intros Hm Hk Hok Herr. unfold cmd_derive. rewrite Hm.
  rewrite (derive_each_run C mnemonic _ _ account cls _ k 0 out Hk).
  - reflexivity.
  - intros j Hj. apply Hok. lia.
  - intros Hlt. apply Herr, Hlt.
Qed.

Lemma cmd_derive_prints_until_first_failure_witness :
  cmd_derive tracing_crypto (Err (LibraryError "EOFError"))
    {| derive_mnemonic := Some not_a_mnemonic; derive_count := 2;
       derive_passphrase := None |}
    hdwallet_enabled []
  = (Ok tt, hdwallet_enabled,
     [lit "0: 6d2f3434272f3630272f30272f302f30  (privkey: 0x6d2f3434272f3630272f30272f302f30)";
      lit "1: 6d2f3434272f3630272f30272f302f31  (privkey: 0x6d2f3434272f3630272f30272f302f31)"]).
Proof.
  exact (cmd_derive_prints_until_first_failure tracing_crypto (Err (LibraryError "EOFError"))
           {| derive_mnemonic := Some not_a_mnemonic; derive_count := 2;
              derive_passphrase := None |}
           hdwallet_enabled [] not_a_mnemonic
           (fun i => (bytes_hex (byte_of_N <$> (lit "m/44'/60'/0'/0/" ++ str_of_int i)),
                      lit "0x" ++ bytes_hex (byte_of_N <$> (lit "m/44'/60'/0'/0/" ++ str_of_int i))))
           2%nat eq_refl ltac:(simpl; lia)
           ltac:(intros i Hi; assert (Hc : i = 0 \/ i = 1) by lia;
                 destruct Hc as [-> | ->]; reflexivity)
           ltac:(simpl; lia)).
Defined.
